(** * BookingForm: the booking submit handler and its payment reconciliation

    A shallow embedding of [src/components/BookingForm.tsx].

    - JavaScript numbers are IEEE-754 binary64 values, taken from the
      Standard Library's executable specification [SpecFloat]
      (precision 53, [emax] 1024, round to nearest, ties to even).
    - JavaScript strings are sequences of UTF-16 code units.
    - The component's React state, the [bookedSessions] item of
      [localStorage] and the calls the handler makes to its collaborators
      (toasts, payment service, callbacks) are explicit: a handler is a
      function from a configuration to a configuration.
    - What a call throws is a value of its result: the code between [try]
      and [catch] is written in the error monad of [Outcome]. *)

From Stdlib Require Import ZArith NArith List Bool Lia String Ascii.
From Stdlib Require Import DecimalString DecimalZ DecimalPos.
From Stdlib Require Import Floats.SpecFloat.
Import ListNotations.

Open Scope Z_scope.

(* ================================================================= *)
(** ** Strings *)

Definition codeunit := N.
Definition jsstring := list codeunit.

(** A string literal of the source, as code units. *)
Definition str (s : string) : jsstring :=
  map N_of_ascii (list_ascii_of_string s).


(** ECMAScript [WhiteSpace] and [LineTerminator] code points, the ones
    [String.prototype.trim] removes. *)
Definition isWhiteSpace (c : codeunit) : bool :=
  (existsb (N.eqb c)
     [9; 10; 11; 12; 13; 32; 160; 5760; 8232; 8233; 8239; 8287; 12288; 65279]
   || (N.leb 8192 c && N.leb c 8202))%bool%N.

Fixpoint trimStart (s : jsstring) : jsstring :=
  match s with
  | c :: s' => if isWhiteSpace c then trimStart s' else s
  | [] => []
  end.

Definition trimEnd (s : jsstring) : jsstring := rev (trimStart (rev s)).

Definition trim (s : jsstring) : jsstring := trimEnd (trimStart s).

(** ToBoolean on a string: only the empty string is falsy. *)
Definition truthy (s : jsstring) : bool :=
  match s with [] => false | _ :: _ => true end.

Definition isDigit (c : codeunit) : bool := (N.leb 48 c && N.leb c 57)%bool.

Definition full_stop : codeunit := 46%N.

(** [s.replace(/[^0-9.]/g, '')]: every code unit that is neither a decimal
    digit nor a full stop is deleted. *)
Definition replace_non_numeric (s : jsstring) : jsstring :=
  filter (fun c => isDigit c || N.eqb c full_stop)%bool s.

Fixpoint span_digits (s : jsstring) : list codeunit * jsstring :=
  match s with
  | c :: s' =>
      if isDigit c then let '(ds, r) := span_digits s' in (c :: ds, r)
      else ([], s)
  | [] => ([], [])
  end.

Definition digits_value (ds : list codeunit) : Z :=
  fold_left (fun acc c => 10 * acc + (Z.of_N c - 48)) ds 0.

Fixpoint starts_with (p s : jsstring) : bool :=
  match p, s with
  | [], _ => true
  | a :: p', b :: s' => N.eqb a b && starts_with p' s'
  | _ :: _, [] => false
  end.

(** Number-to-string conversion of an integer, as a template literal or
    [toString] prints it (for the integers this component prints). *)
Definition Z_to_jsstring (z : Z) : jsstring :=
  str (NilZero.string_of_int (Z.to_int z)).

(* ================================================================= *)
(** ** Numbers *)

Definition number := spec_float.

Definition prec : Z := 53.
Definition emax : Z := 1024.

Definition NaN : number := S754_nan.

Definition Number_sub : number -> number -> number := SFsub prec emax.
Definition Number_mul : number -> number -> number := SFmul prec emax.
Definition Number_div : number -> number -> number := SFdiv prec emax.
Definition Number_ltb : number -> number -> bool := SFltb.
Definition Math_abs : number -> number := SFabs.

Declare Scope js_scope.
Delimit Scope js_scope with js.
Infix "-" := Number_sub : js_scope.
Infix "*" := Number_mul : js_scope.
Infix "/" := Number_div : js_scope.
Infix "<?" := Number_ltb : js_scope.

(** The Number value of an integer (exact below 2^53). *)
Definition Number_of_Z (z : Z) : number := binary_normalize prec emax z 0 false.

(** The Number value of the positive rational [n / d]: one division on
    the integers, rounded once. *)
Definition Number_of_ratio (neg : bool) (n d : positive) : number :=
  let '(q, e, l) := SFdiv_core_binary prec emax (Zpos n) 0 (Zpos d) 0 in
  binary_round_aux prec emax neg q e l.

(** The Number value of the decimal [n * 10^e10], [n] not negative. *)
Definition Number_of_decimal (neg : bool) (n e10 : Z) : number :=
  match n with
  | Z0 => S754_zero neg
  | Zpos p =>
      if 0 <=? e10
      then Number_of_ratio neg (p * Z.to_pos (10 ^ e10)) 1
      else Number_of_ratio neg p (Z.to_pos (10 ^ (- e10)))
  | Zneg _ => NaN
  end.

(** The exponent part of a decimal literal, [0] when there is none. *)
Definition exponent_part (s : jsstring) : Z :=
  match s with
  | c :: r =>
      if (N.eqb c 101 || N.eqb c 69)%bool then
        let '(sgn, r') :=
          match r with
          | 43%N :: r' => (1, r')
          | 45%N :: r' => (-1, r')
          | _ => (1, r)
          end in
        match fst (span_digits r') with
        | [] => 0
        | ds => sgn * digits_value ds
        end
      else 0
  | [] => 0
  end.

(** [parseFloat]: leading white space is skipped, the longest prefix that
    is a [StrDecimalLiteral] is converted, and there is no value ([NaN])
    when no prefix is one. *)
Definition parseFloat (input : jsstring) : number :=
  let s := trimStart input in
  let '(neg, s1) :=
    match s with
    | 43%N :: r => (false, r)
    | 45%N :: r => (true, r)
    | _ => (false, s)
    end in
  if starts_with (str "Infinity") s1 then S754_infinity neg
  else
    let '(ip, r1) := span_digits s1 in
    let '(fp, r2) :=
      match r1 with
      | 46%N :: r => span_digits r
      | _ => ([], r1)
      end in
    match ip ++ fp with
    | [] => NaN
    | ds => Number_of_decimal neg (digits_value ds)
              (exponent_part r2 - Z.of_nat (List.length fp))
    end.

(** [parseInt] with no radix argument: white space, a sign, then either
    [0x] and hexadecimal digits or decimal digits. *)
Definition hexDigit (c : codeunit) : option Z :=
  if isDigit c then Some (Z.of_N c - 48)
  else if (N.leb 97 c && N.leb c 102)%bool then Some (Z.of_N c - 87)
  else if (N.leb 65 c && N.leb c 70)%bool then Some (Z.of_N c - 55)
  else None.

Fixpoint hex_value (acc : option Z) (s : jsstring) : option Z :=
  match s with
  | c :: s' =>
      match hexDigit c with
      | Some d => hex_value (Some (16 * match acc with Some a => a | None => 0 end + d)) s'
      | None => acc
      end
  | [] => acc
  end.

Definition parseInt (input : jsstring) : number :=
  let s := trimStart input in
  let '(neg, s1) :=
    match s with
    | 43%N :: r => (false, r)
    | 45%N :: r => (true, r)
    | _ => (false, s)
    end in
  let magnitude :=
    match s1 with
    | 48%N :: x :: r =>
        if (N.eqb x 120 || N.eqb x 88)%bool then hex_value None r
        else match fst (span_digits s1) with
             | [] => None
             | ds => Some (digits_value ds)
             end
    | _ => match fst (span_digits s1) with
           | [] => None
           | ds => Some (digits_value ds)
           end
    end in
  match magnitude with
  | None => NaN
  | Some 0 => S754_zero neg
  | Some v => Number_of_Z (if neg then - v else v)
  end.

(** [Math.round]: the integer nearest to the argument, a tie going up;
    [NaN], the infinities, the zeros and the integers are returned as
    they are, and a result of zero keeps the sign of the argument. *)
Definition Math_round (x : number) : number :=
  match x with
  | S754_finite s m e =>
      if 0 <=? e then x
      else
        let k := (2 * (if s then Zneg m else Zpos m) + 2 ^ (- e)) / 2 ^ (1 - e) in
        match k with
        | Z0 => S754_zero s
        | _ => Number_of_Z k
        end
  | _ => x
  end.

(* ================================================================= *)
(** ** Data model *)

(** A [Date] object: its time value, milliseconds since the epoch.  The
    dates of the draft are valid ones: [new Date()] at mount, or a date
    chosen in the calendar ([handleDateChange] ignores [undefined]). *)
Definition JsDate := Z.

(** The fields of [Mentor] (declared in [@/types]) that the component reads. *)
Module Mentor.
Record t := {
  id : jsstring;
  name : jsstring;
  hourlyRate : number;
  timeSlots : list jsstring
}.
End Mentor.

Record BookingFormData := {
  mentorId : jsstring;
  sessionDate : JsDate;
  sessionTime : jsstring;
  sessionDuration : number;
  topic : jsstring;
  goals : jsstring;
  paymentAmount : number
}.

(** The object literal [sessionDetails] of [handleSubmit]. *)
Module Session.
Record t := {
  id : jsstring;
  mentorId : jsstring;
  mentorName : jsstring;
  date : jsstring;
  time : jsstring;
  duration : number;
  topic : jsstring;
  goals : jsstring;
  amount : number;
  status : jsstring;
  createdAt : jsstring
}.
End Session.

(** The component's [useState] cells. *)
Record State := {
  formData : BookingFormData;
  isSubmitting : bool;
  isDatePickerOpen : bool;
  error : option jsstring
}.

(** What a call of the component reaches outside itself.  The toast and
    the two callbacks are taken to return. *)
Inductive Event :=
| Toast (title description : jsstring) (destructive : bool)
| PaymentCall (data : BookingFormData) (mentorName : jsstring)
| BalanceCall
| OnClose
| OnSuccess.

(** A JSON value, as [JSON.parse] returns it and [JSON.stringify] reads it. *)
#[warnings="-register-all"] Inductive Json :=
| JNull
| JBool (b : bool)
| JNumber (x : number)
| JString (s : jsstring)
| JArray (items : list Json)
| JObject (members : list (jsstring * Json)).

(** The [bookedSessions] item of [localStorage].  The handler reads its
    text through [getItem(..) || "[]"] and [JSON.parse] and writes it
    through [JSON.stringify], so the item is given by what these make of
    the text: the key is absent; the text is the empty string; the text is
    one that [JSON.parse] rejects, with the message of the [SyntaxError];
    or the text is one that [JSON.parse] accepts, with its value.  The
    value held is the one [JSON.stringify] writes back for the text, which
    is all the handler does with it: a zero has no sign ([-0] is written
    as [0]) and a numeral beyond the range of a double is [null]. *)
Inductive Item :=
| Absent
| Empty
| Malformed (message : jsstring)
| Holds (value : Json).

(** A configuration: the state cells, the [bookedSessions] item of
    [localStorage], and the calls made so far, oldest first. *)
Record Config := {
  ui : State;
  bookedSessions : Item;
  events : list Event
}.

(** A value caught by [catch]: an [Error] with its message, or anything else. *)
Inductive Thrown :=
| ThrownError (message : jsstring)
| ThrownOther.

Inductive Outcome (A : Type) :=
| Returns (a : A)
| Throws (err : Thrown).
Arguments Returns {A} a.
Arguments Throws {A} err.

Record PaymentResult := {
  success : bool;
  message : jsstring
}.

(** The error monad of the code between [try] and [catch]. *)
Definition bind {A B : Type} (o : Outcome A) (k : A -> Outcome B) : Outcome B :=
  match o with
  | Returns a => k a
  | Throws err => Throws err
  end.

Declare Scope outcome_scope.
Delimit Scope outcome_scope with outcome.
Notation "x <- o ;; k" := (bind o (fun x => k))
  (at level 61, o at next level, right associativity) : outcome_scope.

(** The collaborators of one submission: the payment service
    ([@/services/paymanService]), [format] of date-fns, the clock, and
    [localStorage] with the engine: what [getItem] and [setItem] throw, if
    they throw (access to the storage denied, quota exceeded), and the
    message of the [TypeError] raised when [push] is called on a value
    that has no such method.  A service call whose result the handler
    cannot read (no [success] property to get, no [replace] to call) makes
    the next line throw, and counts as a call that throws. *)
Record World := {
  makePaymentFromCart : BookingFormData -> jsstring -> Outcome PaymentResult;
  getWalletBalance : Outcome jsstring;
  format : JsDate -> jsstring -> jsstring;
  Date_now : Z;
  now_toISOString : jsstring;
  getItem_throws : option Thrown;
  setItem_throws : Json -> option Thrown;
  push_TypeError : Json -> jsstring
}.

(* ================================================================= *)
(** ** The component *)

Definition set_formData (f : BookingFormData -> BookingFormData) (c : Config) : Config :=
  {| ui := {| formData := f (formData (ui c));
              isSubmitting := isSubmitting (ui c);
              isDatePickerOpen := isDatePickerOpen (ui c);
              error := error (ui c) |};
     bookedSessions := bookedSessions c;
     events := events c |}.

Definition initialFormData (mentor : Mentor.t) (today : JsDate) : BookingFormData :=
  {| mentorId := Mentor.id mentor;
     sessionDate := today;
     sessionTime := [];
     sessionDuration := Number_of_Z 60;
     topic := [];
     goals := [];
     paymentAmount := Mentor.hourlyRate mentor |}.

(** The amount the effect on [sessionDuration] and [hourlyRate] computes. *)
Definition derivedPaymentAmount (hourlyRate sessionDuration : number) : number :=
  let hours := (sessionDuration / Number_of_Z 60)%js in
  (Math_round (hourlyRate * hours * Number_of_Z 100) / Number_of_Z 100)%js.

Definition updatePaymentAmount (mentor : Mentor.t) (c : Config) : Config :=
  set_formData (fun prev =>
    {| mentorId := mentorId prev;
       sessionDate := sessionDate prev;
       sessionTime := sessionTime prev;
       sessionDuration := sessionDuration prev;
       topic := topic prev;
       goals := goals prev;
       paymentAmount :=
         derivedPaymentAmount (Mentor.hourlyRate mentor)
                              (sessionDuration (formData (ui c))) |}) c.

(** [keyof BookingFormData], and the values the handlers are called with. *)
Inductive Field :=
| F_mentorId | F_sessionDate | F_sessionTime | F_sessionDuration
| F_topic | F_goals | F_paymentAmount.

Inductive FieldValue :=
| VString (s : jsstring)
| VNumber (n : number).

(** [{...prev, [field]: value}], for the fields and values the form's
    controls pass; any other pair leaves the draft as it is. *)
Definition with_field (field : Field) (v : FieldValue) (prev : BookingFormData)
  : BookingFormData :=
  match field, v with
  | F_sessionTime, VString s =>
      {| mentorId := mentorId prev; sessionDate := sessionDate prev;
         sessionTime := s; sessionDuration := sessionDuration prev;
         topic := topic prev; goals := goals prev;
         paymentAmount := paymentAmount prev |}
  | F_sessionDuration, VNumber n =>
      {| mentorId := mentorId prev; sessionDate := sessionDate prev;
         sessionTime := sessionTime prev; sessionDuration := n;
         topic := topic prev; goals := goals prev;
         paymentAmount := paymentAmount prev |}
  | F_topic, VString s =>
      {| mentorId := mentorId prev; sessionDate := sessionDate prev;
         sessionTime := sessionTime prev; sessionDuration := sessionDuration prev;
         topic := s; goals := goals prev;
         paymentAmount := paymentAmount prev |}
  | F_goals, VString s =>
      {| mentorId := mentorId prev; sessionDate := sessionDate prev;
         sessionTime := sessionTime prev; sessionDuration := sessionDuration prev;
         topic := topic prev; goals := s;
         paymentAmount := paymentAmount prev |}
  | F_mentorId, VString s =>
      {| mentorId := s; sessionDate := sessionDate prev;
         sessionTime := sessionTime prev; sessionDuration := sessionDuration prev;
         topic := topic prev; goals := goals prev;
         paymentAmount := paymentAmount prev |}
  | F_paymentAmount, VNumber n =>
      {| mentorId := mentorId prev; sessionDate := sessionDate prev;
         sessionTime := sessionTime prev; sessionDuration := sessionDuration prev;
         topic := topic prev; goals := goals prev;
         paymentAmount := n |}
  | _, _ => prev
  end.

Definition handleInputChange (value : jsstring) (field : Field) (c : Config) : Config :=
  set_formData (with_field field (VString value)) c.

Definition handleSelectChange (value : FieldValue) (field : Field) (c : Config) : Config :=
  set_formData (with_field field value) c.

Definition handleDateChange (date : option JsDate) (c : Config) : Config :=
  match date with
  | Some d =>
      {| ui := {| formData :=
                    {| mentorId := mentorId (formData (ui c));
                       sessionDate := d;
                       sessionTime := sessionTime (formData (ui c));
                       sessionDuration := sessionDuration (formData (ui c));
                       topic := topic (formData (ui c));
                       goals := goals (formData (ui c));
                       paymentAmount := paymentAmount (formData (ui c)) |};
                  isSubmitting := isSubmitting (ui c);
                  isDatePickerOpen := false;
                  error := error (ui c) |};
         bookedSessions := bookedSessions c;
         events := events c |}
  | None => c
  end.

(** The values of the duration control's items, and the durations they
    select through [parseInt]. *)
Definition durationItems : list jsstring :=
  [str "30"; str "60"; str "90"; str "120"].

Definition supportedDurations : list number := map parseInt durationItems.

Definition selectDuration (item : jsstring) (c : Config) : Config :=
  handleSelectChange (VNumber (parseInt item)) F_sessionDuration c.

(** The literal [0.01]. *)
Definition tolerance : number := Number_of_decimal false 1 (-2).

Definition required_fields_message : jsstring :=
  str "Please fill in all required fields".

Definition payment_error_fallback : jsstring :=
  str "An error occurred during payment".

Definition payment_successful : Event :=
  Toast (str "Payment Successful")
        (str "Your payment has been processed successfully.") false.

(** The test of [handleSubmit] on a reported failure: the balance string
    of the wallet is stripped and parsed into [previousBalance], and
    [previousBalance] is compared with [previousBalance - paymentAmount]. *)
Definition reconciles (currentBalance : jsstring) (amount : number) : bool :=
  let previousBalance := parseFloat (replace_non_numeric currentBalance) in
  let expectedBalance := (previousBalance - amount)%js in
  (Math_abs (previousBalance - expectedBalance) <? tolerance)%js.

(** The end of a run of [handleSubmit]: [setError], the calls made, and
    [setIsSubmitting(false)]. *)
Definition settle (c : Config) (err : option jsstring)
  (sessions : Item) (calls : list Event) : Config :=
  {| ui := {| formData := formData (ui c);
              isSubmitting := false;
              isDatePickerOpen := isDatePickerOpen (ui c);
              error := err |};
     bookedSessions := sessions;
     events := events c ++ calls |}.

Definition sessionDetails (w : World) (mentor : Mentor.t) (fd : BookingFormData)
  : Session.t :=
  {| Session.id := str "session-" ++ Z_to_jsstring (Date_now w);
     Session.mentorId := Mentor.id mentor;
     Session.mentorName := Mentor.name mentor;
     Session.date := format w (sessionDate fd) (str "yyyy-MM-dd");
     Session.time := sessionTime fd;
     Session.duration := sessionDuration fd;
     Session.topic := topic fd;
     Session.goals := goals fd;
     Session.amount := paymentAmount fd;
     Session.status := str "confirmed";
     Session.createdAt := now_toISOString w |}.

(** What [JSON.stringify] writes for a number, as [JSON.parse] reads it
    back: a finite number in full, a zero without its sign, and [NaN] and
    the infinities as [null]. *)
Definition JSON_number (x : number) : Json :=
  match x with
  | S754_zero _ => JNumber (S754_zero false)
  | S754_finite _ _ _ => JNumber x
  | S754_infinity _ | S754_nan => JNull
  end.

(** The object [sessionDetails] as [JSON.stringify] writes it. *)
Definition JSON_of_session (r : Session.t) : Json :=
  JObject
    [ (str "id", JString (Session.id r));
      (str "mentorId", JString (Session.mentorId r));
      (str "mentorName", JString (Session.mentorName r));
      (str "date", JString (Session.date r));
      (str "time", JString (Session.time r));
      (str "duration", JSON_number (Session.duration r));
      (str "topic", JString (Session.topic r));
      (str "goals", JString (Session.goals r));
      (str "amount", JSON_number (Session.amount r));
      (str "status", JString (Session.status r));
      (str "createdAt", JString (Session.createdAt r)) ].

(** [JSON.parse(localStorage.getItem("bookedSessions") || "[]")]: an absent
    key and an empty text give the empty array; a text that is not JSON
    makes [JSON.parse] throw. *)
Definition existingSessions (w : World) (c : Config) : Outcome Json :=
  match getItem_throws w with
  | Some err => Throws err
  | None =>
      match bookedSessions c with
      | Absent | Empty => Returns (JArray [])
      | Malformed m => Throws (ThrownError m)
      | Holds value => Returns value
      end
  end.

(** [existingSessions.push(sessionDetails)]: an array takes the record at
    its end, and no other JSON value has a [push] to call.  The record is
    put here in the form the next line's [JSON.stringify] gives it. *)
Definition push (w : World) (existing : Json) (details : Session.t) : Outcome Json :=
  match existing with
  | JArray items => Returns (JArray (items ++ [JSON_of_session details]))
  | _ => Throws (ThrownError (push_TypeError w existing))
  end.

(** [localStorage.setItem("bookedSessions", JSON.stringify(existingSessions))]:
    the item written, or what [setItem] throws. *)
Definition setItem (w : World) (value : Json) : Outcome Item :=
  match setItem_throws w value with
  | Some err => Throws err
  | None => Returns (Holds value)
  end.

(** Lines 135-137. *)
Definition appendSession (w : World) (c : Config) (details : Session.t)
  : Outcome Item :=
  (existing <- existingSessions w c ;;
   pushed <- push w existing details ;;
   setItem w pushed)%outcome.

(** The [catch] clause. *)
Definition caught (c : Config) (calls : list Event) (err : Thrown) : Config :=
  let msg :=
    match err with
    | ThrownError m => m
    | ThrownOther => payment_error_fallback
    end in
  settle c (Some msg) (bookedSessions c) (calls ++ [Toast (str "Error") msg true]).

(** Lines 119-141: the record is pushed on the stored array, the array is
    written back, and the two callbacks are called; what is thrown on the
    way, after the success notification, goes to the [catch] clause. *)
Definition storeSession (w : World) (mentor : Mentor.t) (c : Config)
  (calls : list Event) : Config :=
  match appendSession w c (sessionDetails w mentor (formData (ui c))) with
  | Returns item => settle c None item (calls ++ [OnClose; OnSuccess])
  | Throws err => caught c calls err
  end.

(** The validation test of line 74. *)
Definition missing_required (fd : BookingFormData) : bool :=
  negb (truthy (trim (topic fd)))
  || negb (truthy (trim (goals fd)))
  || negb (truthy (sessionTime fd)).

Definition handleSubmit (w : World) (mentor : Mentor.t) (c : Config) : Config :=
  let fd := formData (ui c) in
  if missing_required fd then
    settle c (Some required_fields_message) (bookedSessions c)
      [Toast (str "Validation Error") required_fields_message true]
  else
    let pay := PaymentCall fd (Mentor.name mentor) in
    match makePaymentFromCart w fd (Mentor.name mentor) with
    | Throws err => caught c [pay] err
    | Returns paymentResult =>
        if negb (success paymentResult) then
          match getWalletBalance w with
          | Throws err => caught c [pay; BalanceCall] err
          | Returns currentBalance =>
              if reconciles currentBalance (paymentAmount fd) then
                storeSession w mentor c [pay; BalanceCall; payment_successful]
              else
                settle c (Some (message paymentResult)) (bookedSessions c)
                  [pay; BalanceCall;
                   Toast (str "Payment Failed") (message paymentResult) true]
          end
        else
          storeSession w mentor c [pay; payment_successful]
    end.

(** What the user and React can make the mounted component do. *)
Inductive Action :=
| InputChange (value : jsstring) (field : Field)
| SelectChange (value : FieldValue) (field : Field)
| DateChange (date : option JsDate)
| DurationEffect
| Submit (w : World).

Definition step (mentor : Mentor.t) (a : Action) (c : Config) : Config :=
  match a with
  | InputChange value field => handleInputChange value field c
  | SelectChange value field => handleSelectChange value field c
  | DateChange date => handleDateChange date c
  | DurationEffect => updatePaymentAmount mentor c
  | Submit w => handleSubmit w mentor c
  end.

Definition run (mentor : Mentor.t) (actions : list Action) (c : Config) : Config :=
  fold_left (fun c a => step mentor a c) actions c.

(** Counting the calls of a run. *)
Definition is_payment_call (e : Event) : bool :=
  match e with PaymentCall _ _ => true | _ => false end.

Definition is_callback (e : Event) : bool :=
  match e with OnClose | OnSuccess => true | _ => false end.

Definition payment_calls (evs : list Event) : nat :=
  List.length (filter is_payment_call evs).

(** The message the [catch] clause shows for a thrown value. *)
Definition thrown_message (err : Thrown) : jsstring :=
  match err with
  | ThrownError m => m
  | ThrownOther => payment_error_fallback
  end.

(** The records of the stored list: the elements of the array the item
    holds; none when the key is absent or the item holds no array. *)
Definition storedRecords (c : Config) : list Json :=
  match bookedSessions c with
  | Holds (JArray items) => items
  | _ => []
  end.

(** The item is one a record can be pushed on: absent, empty, or an array. *)
Definition holds_array (item : Item) : bool :=
  match item with
  | Absent | Empty | Holds (JArray _) => true
  | _ => false
  end.

(** The store takes the record: the item is absent, empty or an array,
    and neither [getItem] nor [setItem] throws. *)
Definition storable (w : World) (c : Config) (details : Session.t) : bool :=
  match getItem_throws w,
        setItem_throws w (JArray (storedRecords c ++ [JSON_of_session details])) with
  | None, None => holds_array (bookedSessions c)
  | _, _ => false
  end.



(** The comparison as the specification words it: the absolute difference
    between the expected post-payment balance and the actual balance is
    below the tolerance. *)
Definition within_tolerance (expected actual : number) : bool :=
  (Math_abs (expected - actual) <? tolerance)%js.

(** A world like [w] whose payment call returns [r]. *)
Definition reporting (w : World) (r : PaymentResult) : World :=
  {| makePaymentFromCart := fun _ _ => Returns r;
     getWalletBalance := getWalletBalance w;
     format := format w;
     Date_now := Date_now w;
     now_toISOString := now_toISOString w;
     getItem_throws := getItem_throws w;
     setItem_throws := setItem_throws w;
     push_TypeError := push_TypeError w |}.


(** Concrete inputs used to exercise the statements below. *)
Definition ada : Mentor.t :=
  {| Mentor.id := str "mentor-1";
     Mentor.name := str "Ada";
     Mentor.hourlyRate := Number_of_Z 50;
     Mentor.timeSlots := [str "10:00"; str "14:00"] |}.

Definition draft (amount : number) : BookingFormData :=
  {| mentorId := str "mentor-1";
     sessionDate := 1762041600000;
     sessionTime := str "10:00";
     sessionDuration := Number_of_Z 60;
     topic := str "Proof engineering";
     goals := str "Learn induction";
     paymentAmount := amount |}.

Definition blank_draft : BookingFormData :=
  {| mentorId := str "mentor-1";
     sessionDate := 1762041600000;
     sessionTime := str "10:00";
     sessionDuration := Number_of_Z 60;
     topic := str "   ";
     goals := str "Learn induction";
     paymentAmount := Number_of_Z 50 |}.

Definition mounted (fd : BookingFormData) (stored : Item) : Config :=
  {| ui := {| formData := fd; isSubmitting := false;
              isDatePickerOpen := false; error := None |};
     bookedSessions := stored;
     events := [] |}.

Definition world (pay : Outcome PaymentResult) (balance : Outcome jsstring) : World :=
  {| makePaymentFromCart := fun _ _ => pay;
     getWalletBalance := balance;
     format := fun _ _ => str "2025-11-02";
     Date_now := 1762041600000;
     now_toISOString := str "2025-11-02T00:00:00.000Z";
     getItem_throws := None;
     setItem_throws := fun _ => None;
     push_TypeError := fun existing =>
       match existing with
       | JNull => str "Cannot read properties of null (reading 'push')"
       | _ => str "existingSessions.push is not a function"
       end |}.

Definition declined : PaymentResult :=
  {| success := false; message := str "Insufficient funds" |}.

Definition accepted : PaymentResult :=
  {| success := true; message := str "ok" |}.

(* ================================================================= *)
(** ** Values of numbers *)

Definition Number_leb : number -> number -> bool := SFleb.
Infix "<=?" := Number_leb : js_scope.

(** The value of a number in units of 2^-1074, the least positive number. *)
Definition units (x : number) : Z :=
  match x with
  | S754_finite s m e => (if s then -1 else 1) * (Zpos m * 2 ^ (e + 1074))
  | _ => 0
  end.

Definition is_finite (x : number) : bool :=
  match x with
  | S754_finite _ _ _ | S754_zero _ => true
  | _ => false
  end.

(** The representations that are binary64 values: a mantissa of at most
    53 digits at its canonical exponent. *)
Definition valid (x : number) : bool := valid_binary prec emax x.

(** What [k] right shifts of the mantissa [M] have kept: the quotient, the
    digit shifted out last, and whether a digit shifted out earlier was
    set. *)
Definition shr_inv (M k : Z) (mrs : shr_record) : Prop :=
  0 <= shr_m mrs /\
  exists rest, 0 <= rest < 2 ^ k /\
    2 * M = shr_m mrs * 2 ^ (k + 1) + (if shr_r mrs then 2 ^ k else 0) + rest /\
    (shr_s mrs = false <-> rest = 0).

(** Bounds used below: balances and amounts up to 2^32, and the two
    amounts 0.009998 and 0.010002 on either side of the tolerance. *)
Definition magnitude_bound : number := Number_of_Z (2 ^ 32).
Definition below_tolerance : number := Number_of_decimal false 9998 (-6).
Definition above_tolerance : number := Number_of_decimal false 10002 (-6).

(* ================================================================= *)
(** ** The payment amount and the form's controls *)

(** One, in units of 2^-1074. *)
Definition UNIT : Z := 2 ^ 1074.

(** The rational [num / den], in hundredths, rounded to the nearest
    integer, a tie going up. *)
Definition round_to_cents (num den : Z) : Z := (200 * num + den) / (2 * den).

(** The least rate considered below, 2^-32. *)
Definition least_rate : number := Number_of_ratio false 1 (2 ^ 32).


(** The [disabled] attribute of the submit button. *)
Definition submitDisabled (s : State) : bool :=
  isSubmitting s
  || negb (truthy (sessionTime (formData s)))
  || negb (truthy (topic (formData s)))
  || negb (truthy (goals (formData s))).

Definition is_toast (e : Event) : bool :=
  match e with Toast _ _ _ => true | _ => false end.

Definition is_balance_call (e : Event) : bool :=
  match e with BalanceCall => true | _ => false end.

Definition is_onSuccess (e : Event) : bool :=
  match e with OnSuccess => true | _ => false end.

Definition balance_calls (evs : list Event) : nat :=
  List.length (filter is_balance_call evs).

Definition successes (evs : list Event) : nat :=
  List.length (filter is_onSuccess evs).


(* ================================================================= *)
(** * Properties *)

(** ** The validation gate *)

Lemma missing_required_iff (fd : BookingFormData) :
  missing_required fd = true <->
  trim (topic fd) = [] \/ trim (goals fd) = [] \/ sessionTime fd = [].
Proof.
  unfold missing_required.
  destruct (trim (topic fd)), (trim (goals fd)), (sessionTime fd); simpl;
    split; intros H; try reflexivity; try discriminate; auto;
    destruct H as [H | [H | H]]; discriminate.
Qed.

(** C5. When the topic is empty after trimming, or the goals are, or no
    time slot is selected, the submission is blocked: the validation
    message is set and notified, no call is made to the payment service,
    the callbacks are not called, the stored sessions and the draft are
    left as they were, and the submitting flag is down. *)
Theorem validation_blocks_submission (w : World) (mentor : Mentor.t) (c : Config) :
  trim (topic (formData (ui c))) = [] \/
  trim (goals (formData (ui c))) = [] \/
  sessionTime (formData (ui c)) = [] ->
  let c' := handleSubmit w mentor c in
  error (ui c') = Some required_fields_message /\
  events c' = events c ++
    [Toast (str "Validation Error") required_fields_message true] /\
  payment_calls (events c') = payment_calls (events c) /\
  bookedSessions c' = bookedSessions c /\
  formData (ui c') = formData (ui c) /\
  isSubmitting (ui c') = false.
Proof.
  intros H c'. subst c'. unfold handleSubmit.
  apply missing_required_iff in H. rewrite H. cbn.
  repeat split.
  unfold payment_calls. rewrite filter_app, length_app. cbn. lia.
Qed.

Lemma validation_blocks_submission_witness :
  let c := mounted blank_draft (Holds (JArray [])) in
  let c' := handleSubmit (world (Returns accepted) (Returns (str "$100.00"))) ada c in
  error (ui c') = Some required_fields_message /\
  events c' = events c ++
    [Toast (str "Validation Error") required_fields_message true] /\
  payment_calls (events c') = payment_calls (events c) /\
  bookedSessions c' = bookedSessions c /\
  formData (ui c') = formData (ui c) /\
  isSubmitting (ui c') = false.
Proof.
  apply (validation_blocks_submission
           (world (Returns accepted) (Returns (str "$100.00"))) ada
           (mounted blank_draft (Holds (JArray [])))).
  left. reflexivity.
Defined.

(** ** Storing the record *)

Lemma appendSession_cases (w : World) (c : Config) (details : Session.t) :
  (storable w c details = true /\
   appendSession w c details
   = Returns (Holds (JArray (storedRecords c ++ [JSON_of_session details]))))
  \/ (storable w c details = false /\
      exists err, appendSession w c details = Throws err).
Proof.
  unfold storable, appendSession, existingSessions, storedRecords, setItem, bind.
  destruct (getItem_throws w) as [err|]; [right; split; [reflexivity | now exists err]|].
  destruct (bookedSessions c) as [| | m | [ | b | x | s | items | members]];
    cbn [holds_array push app];
    try (right; split; [now destruct (setItem_throws w _) | eexists; reflexivity]);
    destruct (setItem_throws w _) as [err|];
    try (right; split; [reflexivity | now exists err]);
    left; split; reflexivity.
Qed.

Lemma storable_holds_array (w : World) (c : Config) (details : Session.t) :
  storable w c details = true -> holds_array (bookedSessions c) = true.
Proof.
  unfold storable. destruct (getItem_throws w); [discriminate|].
  destruct (setItem_throws w _); [discriminate|]. easy.
Qed.

(** The two ways lines 119-141 end. *)
Lemma storeSession_cases (w : World) (mentor : Mentor.t) (c : Config)
  (calls : list Event) :
  let details := sessionDetails w mentor (formData (ui c)) in
  (storable w c details = true /\
   storeSession w mentor c calls
   = settle c None (Holds (JArray (storedRecords c ++ [JSON_of_session details])))
            (calls ++ [OnClose; OnSuccess]))
  \/ (storable w c details = false /\
      exists err, appendSession w c details = Throws err /\
                  storeSession w mentor c calls = caught c calls err).
Proof.
  cbv zeta. unfold storeSession.
  destruct (appendSession_cases w c (sessionDetails w mentor (formData (ui c))))
    as [[Hs ->] | [Hs [err ->]]].
  - left. now split.
  - right. split; [exact Hs|]. now exists err.
Qed.

(** ** Reported success *)




(** ** Failed submissions *)

Lemma payment_calls_app (a b : list Event) :
  payment_calls (a ++ b) = (payment_calls a + payment_calls b)%nat.
Proof. unfold payment_calls. now rewrite filter_app, length_app. Qed.

Lemma filter_callbacks_app (a b : list Event) :
  filter is_callback (a ++ b) = filter is_callback a ++ filter is_callback b.
Proof. apply filter_app. Qed.

(** C7. A submission fails when the payment call reports failure and the
    reconciliation test does not hold, when the payment call throws, or
    when the balance call throws.  Each time the stored sessions are left
    as they were, the error message is set and notified (the reported
    message, or the message of the thrown error, or the fallback text),
    the payment service has been called once and no more, no callback is
    called, and the submitting flag is down. *)
Theorem failed_submission_aborts
  (w : World) (mentor : Mentor.t) (c : Config) (msg : jsstring) :
  missing_required (formData (ui c)) = false ->
  (exists res balance,
      makePaymentFromCart w (formData (ui c)) (Mentor.name mentor) = Returns res /\
      success res = false /\
      getWalletBalance w = Returns balance /\
      reconciles balance (paymentAmount (formData (ui c))) = false /\
      msg = message res)
  \/ (exists err,
      makePaymentFromCart w (formData (ui c)) (Mentor.name mentor) = Throws err /\
      msg = match err with ThrownError m => m | ThrownOther => payment_error_fallback end)
  \/ (exists res err,
      makePaymentFromCart w (formData (ui c)) (Mentor.name mentor) = Returns res /\
      success res = false /\
      getWalletBalance w = Throws err /\
      msg = match err with ThrownError m => m | ThrownOther => payment_error_fallback end) ->
  let c' := handleSubmit w mentor c in
  bookedSessions c' = bookedSessions c /\
  error (ui c') = Some msg /\
  (exists calls title,
      events c' = events c ++ calls ++ [Toast title msg true] /\
      payment_calls (calls ++ [Toast title msg true]) = 1%nat /\
      filter is_callback (calls ++ [Toast title msg true]) = []) /\
  isSubmitting (ui c') = false.
Proof.
  intros Hvalid H c'. subst c'. unfold handleSubmit. rewrite Hvalid.
  destruct H as [(res & bal & Hp & Hs & Hb & Hr & ->)
                | [(err & Hp & ->) | (res & err & Hp & Hs & Hb & ->)]].
  - rewrite Hp, Hs, Hb, Hr. cbn. repeat split.
    exists [PaymentCall (formData (ui c)) (Mentor.name mentor); BalanceCall],
           (str "Payment Failed").
    repeat split.
  - rewrite Hp. cbn. repeat split.
    exists [PaymentCall (formData (ui c)) (Mentor.name mentor)], (str "Error").
    repeat split.
  - rewrite Hp, Hs, Hb. cbn. repeat split.
    exists [PaymentCall (formData (ui c)) (Mentor.name mentor); BalanceCall],
           (str "Error").
    repeat split.
Qed.

Lemma failed_submission_aborts_witness :
  let c := mounted (draft (Number_of_Z 50)) (Holds (JArray [])) in
  let c' := handleSubmit (world (Throws (ThrownError (str "Network down")))
                                (Returns (str "$100.00"))) ada c in
  bookedSessions c' = bookedSessions c /\
  error (ui c') = Some (str "Network down") /\
  (exists calls title,
      events c' = events c ++ calls ++ [Toast title (str "Network down") true] /\
      payment_calls (calls ++ [Toast title (str "Network down") true]) = 1%nat /\
      filter is_callback (calls ++ [Toast title (str "Network down") true]) = []) /\
  isSubmitting (ui c') = false.
Proof.
  apply (failed_submission_aborts
           (world (Throws (ThrownError (str "Network down")))
                  (Returns (str "$100.00"))) ada
           (mounted (draft (Number_of_Z 50)) (Holds (JArray []))) (str "Network down")).
  - reflexivity.
  - right. left. exists (ThrownError (str "Network down")). split; reflexivity.
Defined.

(** ** The stored list *)

Lemma handleSubmit_sessions (w : World) (mentor : Mentor.t) (c : Config) :
  bookedSessions (handleSubmit w mentor c) = bookedSessions c \/
  (holds_array (bookedSessions c) = true /\
   bookedSessions (handleSubmit w mentor c)
   = Holds (JArray (storedRecords c
                    ++ [JSON_of_session (sessionDetails w mentor (formData (ui c)))]))).
Proof.
  assert (Hstore : forall calls,
             bookedSessions (storeSession w mentor c calls) = bookedSessions c \/
             (holds_array (bookedSessions c) = true /\
              bookedSessions (storeSession w mentor c calls)
              = Holds (JArray (storedRecords c
                  ++ [JSON_of_session (sessionDetails w mentor (formData (ui c)))])))).
  { intros calls.
    destruct (storeSession_cases w mentor c calls) as [[Hs ->] | [_ (err & _ & ->)]].
    - right. split; [exact (storable_holds_array _ _ _ Hs) | reflexivity].
    - now left. }
  unfold handleSubmit.
  destruct (missing_required _); [now left|].
  destruct (makePaymentFromCart _ _ _) as [res | err]; [|now left].
  destruct (success res); cbn [negb]; [apply Hstore|].
  destruct (getWalletBalance w) as [bal | err]; [|now left].
  destruct (reconciles _ _); [apply Hstore | now left].
Qed.

Lemma step_sessions (mentor : Mentor.t) (a : Action) (c : Config) :
  bookedSessions (step mentor a c) = bookedSessions c \/
  exists r, holds_array (bookedSessions c) = true /\
            bookedSessions (step mentor a c) = Holds (JArray (storedRecords c ++ [r])).
Proof.
  destruct a as [v f | v f | [d|] | | w]; cbn; try (now left).
  destruct (handleSubmit_sessions w mentor c) as [H | H]; [now left|].
  right. eexists. exact H.
Qed.

Lemma step_existing (mentor : Mentor.t) (a : Action) (c : Config) :
  exists added, storedRecords (step mentor a c) = storedRecords c ++ added.
Proof.
  destruct (step_sessions mentor a c) as [H | (r & _ & H)];
    unfold storedRecords at 1; rewrite H.
  - exists []. now rewrite app_nil_r.
  - now exists [r].
Qed.

(** C8. The stored list is append-only.  One action of the component
    leaves the [bookedSessions] item as it was or, the item being absent,
    empty or an array, replaces it by the former list with one record
    added at its end; and after any sequence of actions the list is the
    former list followed by the added records: no stored record is
    changed or removed. *)
Theorem stored_sessions_append_only (mentor : Mentor.t) :
  (forall (a : Action) (c : Config),
      bookedSessions (step mentor a c) = bookedSessions c \/
      exists r, holds_array (bookedSessions c) = true /\
                bookedSessions (step mentor a c)
                = Holds (JArray (storedRecords c ++ [r]))) /\
  (forall (actions : list Action) (c : Config),
      exists added,
        storedRecords (run mentor actions c) = storedRecords c ++ added).
Proof.
  split; [apply step_sessions|].
  induction actions as [|a actions IH]; intros c; cbn.
  - exists []. now rewrite app_nil_r.
  - destruct (step_existing mentor a c) as [x Hx].
    destruct (IH (step mentor a c)) as [y Hy].
    exists (x ++ y). unfold run in Hy. rewrite Hy, Hx. now rewrite app_assoc.
Qed.

(** ** Facts on binary64 subtraction *)

Lemma Number_sub_NaN_l (y : number) : (NaN - y)%js = NaN.
Proof. destruct y; reflexivity. Qed.

Lemma Number_ltb_NaN_l (y : number) : (NaN <? y)%js = false.
Proof. destruct y; reflexivity. Qed.

Lemma abs_binary_round_aux (s : bool) (m e : Z) (l : location) :
  SFabs (binary_round_aux prec emax s m e l) = binary_round_aux prec emax false m e l.
Proof.
  unfold binary_round_aux.
  destruct (shr_fexp prec emax m e l) as [mrs' e'].
  destruct (shr_fexp prec emax _ e' loc_Exact) as [mrs'' e''].
  destruct (shr_m mrs''); try reflexivity.
  destruct (e'' <=? emax - prec); reflexivity.
Qed.

Lemma abs_binary_round (s : bool) (m : positive) (e : Z) :
  SFabs (binary_round prec emax s m e) = binary_round prec emax false m e.
Proof.
  unfold binary_round.
  destruct (shl_align m e _) as [mz ez]. apply abs_binary_round_aux.
Qed.

Lemma abs_binary_normalize_opp (m e : Z) :
  SFabs (binary_normalize prec emax (- m) e false)
  = SFabs (binary_normalize prec emax m e false).
Proof.
  destruct m; cbn [Z.opp binary_normalize]; try reflexivity;
    now rewrite !abs_binary_round.
Qed.

Lemma Math_abs_sub_comm (x y : number) :
  Math_abs (x - y)%js = Math_abs (y - x)%js.
Proof.
  unfold Math_abs, Number_sub.
  destruct x as [sx | sx | | sx mx ex], y as [sy | sy | | sy my ey];
    try reflexivity;
    try (destruct sx, sy; reflexivity).
  cbn [SFsub]. rewrite Z.min_comm.
  rewrite <- abs_binary_normalize_opp. f_equal. f_equal. lia.
Qed.

(** * Binary64 arithmetic *)

(** ** Digits *)

Lemma digits2_pos_bounds (p : positive) :
  2 ^ (Zpos (digits2_pos p) - 1) <= Zpos p < 2 ^ Zpos (digits2_pos p).
Proof.
  induction p as [p IH | p IH |]; cbn [digits2_pos];
    rewrite ?Pos2Z.inj_succ.
  - replace (Z.succ (Zpos (digits2_pos p)) - 1) with (Z.succ (Zpos (digits2_pos p) - 1)) by lia.
    rewrite !Z.pow_succ_r by lia. lia.
  - replace (Z.succ (Zpos (digits2_pos p)) - 1) with (Z.succ (Zpos (digits2_pos p) - 1)) by lia.
    rewrite !Z.pow_succ_r by lia. lia.
  - cbn. lia.
Qed.

Lemma digits2_pos_unique (p : positive) (d : Z) :
  2 ^ (d - 1) <= Zpos p < 2 ^ d -> Zpos (digits2_pos p) = d.
Proof.
  intros [Hlo Hhi]. pose proof (digits2_pos_bounds p) as [Blo Bhi].
  assert (0 < d).
  { destruct (Z.ltb_spec 0 d); [assumption|].
    exfalso. destruct (Z.eq_dec d 0) as [-> | ]; [cbn in Hhi; lia|].
    rewrite Z.pow_neg_r in Hhi by lia. lia. }
  assert (d - 1 < Zpos (digits2_pos p)).
  { apply (Z.pow_lt_mono_r_iff 2); lia. }
  assert (Zpos (digits2_pos p) - 1 < d).
  { apply (Z.pow_lt_mono_r_iff 2); lia. }
  lia.
Qed.

Lemma digits2_pos_shift (p : positive) (k : Z) :
  0 <= k ->
  Zpos (digits2_pos (Z.to_pos (Zpos p * 2 ^ k))) = Zpos (digits2_pos p) + k.
Proof.
  intros Hk. pose proof (digits2_pos_bounds p) as [Blo Bhi].
  assert (0 < 2 ^ k) by (apply Z.pow_pos_nonneg; lia).
  apply digits2_pos_unique. rewrite Z2Pos.id by lia.
  replace (Zpos (digits2_pos p) + k - 1) with ((Zpos (digits2_pos p) - 1) + k) by lia.
  rewrite !Z.pow_add_r by lia. nia.
Qed.

(** ** Right shifts *)

Lemma iter_pos_nat {A : Type} (f : A -> A) (p : positive) (x : A) :
  iter_pos f p x = Nat.iter (Pos.to_nat p) f x.
Proof.
  revert x. induction p as [p IH | p IH |]; intros x; cbn [iter_pos].
  - rewrite !IH, Pos2Nat.inj_xI.
    replace (S (2 * Pos.to_nat p)) with (Pos.to_nat p + S (Pos.to_nat p))%nat by lia.
    now rewrite Nat.iter_add, Nat.iter_succ_r.
  - rewrite !IH, Pos2Nat.inj_xO.
    replace (2 * Pos.to_nat p)%nat with (Pos.to_nat p + Pos.to_nat p)%nat by lia.
    now rewrite Nat.iter_add.
  - reflexivity.
Qed.

Lemma shr_1_nonneg (m : Z) (r s : bool) :
  0 <= m ->
  shr_1 (Build_shr_record m r s) = Build_shr_record (m / 2) (Z.odd m) (r || s).
Proof.
  intros Hm. destruct m as [|p|p]; [reflexivity| |lia].
  destruct p as [p|p|]; cbn [shr_1].
  - f_equal. rewrite Pos2Z.inj_xI. apply Z.div_unique with 1; lia.
  - f_equal. rewrite Pos2Z.inj_xO. apply Z.div_unique with 0; lia.
  - reflexivity.
Qed.

Lemma shr_inv_init (M : Z) :
  0 <= M -> shr_inv M 0 (Build_shr_record M false false).
Proof.
  intros HM. split; [exact HM|]. exists 0.
  change (2 ^ (0 + 1)) with 2. change (2 ^ 0) with 1.
  cbn [shr_m shr_r shr_s]. repeat split; lia.
Qed.

Lemma shr_inv_step (M k : Z) (mrs : shr_record) :
  0 <= k -> shr_inv M k mrs -> shr_inv M (k + 1) (shr_1 mrs).
Proof.
  intros Hk [Hm (rest & Hrest & Heq & Hs)].
  destruct mrs as [m r s]. cbn [shr_m shr_r shr_s] in *.
  rewrite shr_1_nonneg by assumption. cbn [shr_m shr_r shr_s].
  assert (Hp : 0 < 2 ^ k) by (apply Z.pow_pos_nonneg; lia).
  assert (Hk1 : 2 ^ (k + 1) = 2 * 2 ^ k) by (rewrite Z.pow_add_r by lia; lia).
  assert (Hk2 : 2 ^ (k + 1 + 1) = 4 * 2 ^ k) by (rewrite !Z.pow_add_r by lia; lia).
  pose proof (Z.div_mod m 2 ltac:(lia)) as Hdm.
  pose proof (Zmod_odd m) as Hodd.
  split; [apply Z.div_pos; lia|].
  exists ((if r then 2 ^ k else 0) + rest).
  rewrite Hk1, Hk2. rewrite Hk1 in Heq.
  cbn [shr_m shr_r shr_s].
  repeat split.
  - destruct r; cbv iota; lia.
  - destruct r; cbv iota; lia.
  - destruct (Z.odd m), r; cbv iota in *; nia.
  - intros Hrs. apply orb_false_elim in Hrs as [-> Hs']. apply Hs in Hs'. lia.
  - intros H0. destruct r; cbv iota in H0; [lia|]. cbn. apply Hs. lia.
Qed.

Lemma shr_inv_iter (M : Z) (n : nat) :
  0 <= M ->
  shr_inv M (Z.of_nat n) (Nat.iter n shr_1 (Build_shr_record M false false)).
Proof.
  intros HM. induction n as [|n IH].
  - apply shr_inv_init, HM.
  - rewrite Nat2Z.inj_succ. cbn [Nat.iter]. unfold Z.succ.
    apply shr_inv_step; [lia|exact IH].
Qed.

Lemma shr_inv_quotient (M k : Z) (mrs : shr_record) :
  0 <= k -> shr_inv M k mrs ->
  shr_m mrs * 2 ^ k <= M < (shr_m mrs + 1) * 2 ^ k.
Proof.
  intros Hk [Hm (rest & Hrest & Heq & Hs)].
  assert (Hp : 0 < 2 ^ k) by (apply Z.pow_pos_nonneg; lia).
  rewrite Z.pow_add_r in Heq by lia. change (2 ^ 1) with 2 in Heq.
  destruct (shr_r mrs); cbv iota in Heq; nia.
Qed.

(** Rounding to nearest after the shift: the result is within half a unit
    of the shifted value, and equal to it when the shift loses nothing. *)
Lemma shr_inv_round (M k : Z) (mrs : shr_record) :
  0 <= k -> shr_inv M k mrs ->
  let m := round_nearest_even (shr_m mrs) (loc_of_shr_record mrs) in
  shr_m mrs <= m <= shr_m mrs + 1 /\
  Z.abs (2 * M - m * 2 ^ (k + 1)) <= 2 ^ k /\
  (M mod 2 ^ k = 0 -> m * 2 ^ k = M).
Proof.
  intros Hk [Hm (rest & Hrest & Heq & Hs)] m. subst m.
  assert (Hp : 0 < 2 ^ k) by (apply Z.pow_pos_nonneg; lia).
  assert (Hk1 : 2 ^ (k + 1) = 2 * 2 ^ k) by (rewrite Z.pow_add_r by lia; lia).
  rewrite Hk1 in *.
  destruct mrs as [m r s]. cbn [shr_m shr_r shr_s loc_of_shr_record] in *.
  assert (Hexact : M mod 2 ^ k = 0 -> r = false /\ rest = 0).
  { intros Hmod. apply Z.mod_divide in Hmod; [|lia]. destruct Hmod as [q Hq].
    destruct r.
    - assert (2 * (q - m) * 2 ^ k = 2 ^ k + rest) by lia.
      assert (q - m <= 0 \/ 1 <= q - m) as [|] by lia; nia.
    - split; [reflexivity|].
      assert (2 * (q - m) * 2 ^ k = rest) by lia.
      assert (q - m <= 0 \/ 1 <= q - m) as [|] by lia; nia. }
  assert (Hs' : s = true -> rest <> 0).
  { intros -> E. apply Hs in E. discriminate. }
  destruct r, s; cbn [round_nearest_even]; cbv iota in Heq;
    try (assert (rest = 0) by (now apply Hs));
    try (assert (rest <> 0) by (now apply Hs'));
    try destruct (Z.even m);
    (split; [lia|split; [lia|]]);
    intros Hmod; apply Hexact in Hmod; destruct Hmod; try discriminate; lia.
Qed.

(** ** Rounding a mantissa and an exponent to a number *)

Lemma fexp_eq (e : Z) : fexp prec emax e = Z.max (e - 53) (-1074).
Proof. reflexivity. Qed.

Lemma bounded_iff (m : positive) (e : Z) :
  bounded prec emax m e = true <->
  Z.max (Zpos (digits2_pos m) + e - 53) (-1074) = e /\ e <= 971.
Proof.
  unfold bounded, canonical_mantissa. rewrite fexp_eq.
  rewrite andb_true_iff, Z.eqb_eq, Z.leb_le. reflexivity.
Qed.

(** A mantissa in canonical position is kept as it is. *)
Lemma binary_round_aux_bounded (s : bool) (m : positive) (e : Z) :
  bounded prec emax m e = true ->
  binary_round_aux prec emax s (Zpos m) e loc_Exact = S754_finite s m e.
Proof.
  intros Hb. apply bounded_iff in Hb as [Hc He].
  unfold binary_round_aux, shr_fexp. cbn [Zdigits2 shr_record_of_loc].
  rewrite fexp_eq, Hc, Z.sub_diag. cbn [shr shr_m loc_of_shr_record round_nearest_even].
  cbn [Zdigits2 shr_record_of_loc].
  rewrite fexp_eq, Hc, Z.sub_diag. cbn [shr shr_m].
  replace (e <=? emax - prec) with true; [reflexivity|].
  symmetry. apply Z.leb_le. exact He.
Qed.

(** A mantissa of more than 53 digits is shifted right and rounded: the
    result is a canonical number within half a unit in the last place,
    and it is exact when the shift loses no digit. *)
Lemma binary_round_aux_round (s : bool) (M : positive) (E : Z) :
  let d := Zpos (digits2_pos M) in
  53 < d -> -1074 <= d + E - 53 -> d + E - 53 < 971 ->
  exists m e,
    binary_round_aux prec emax s (Zpos M) E loc_Exact = S754_finite s m e /\
    bounded prec emax m e = true /\
    d + E - 53 <= e /\
    Z.abs (2 * Zpos M - Zpos m * 2 ^ (e - E + 1)) <= 2 ^ (d - 53) /\
    (Zpos M mod 2 ^ (d - 53) = 0 -> Zpos m * 2 ^ (e - E) = Zpos M).
Proof.
  intros d Hd Hlo Hhi.
  pose proof (digits2_pos_bounds M) as [Blo Bhi]. fold d in Blo, Bhi.
  set (n1 := d - 53) in *.
  assert (Hn1 : 0 < n1) by (unfold n1; lia).
  assert (Hp : 0 < 2 ^ n1) by (apply Z.pow_pos_nonneg; lia).
  assert (Hd1 : 2 ^ d = 2 ^ 53 * 2 ^ n1).
  { rewrite <- Z.pow_add_r by lia. f_equal. unfold n1. lia. }
  assert (Hd2 : 2 ^ (d - 1) = 2 ^ 52 * 2 ^ n1).
  { rewrite <- Z.pow_add_r by lia. f_equal. unfold n1. lia. }
  unfold binary_round_aux, shr_fexp. cbn [Zdigits2 shr_record_of_loc].
  fold d. rewrite fexp_eq.
  replace (Z.max (d + E - 53) (-1074) - E) with n1 by (unfold n1; lia).
  destruct n1 as [|pn|pn] eqn:En1; try lia.
  cbn [shr]. rewrite iter_pos_nat.
  pose proof (shr_inv_iter (Zpos M) (Pos.to_nat pn) (Pos2Z.is_nonneg M)) as Hinv.
  rewrite positive_nat_Z in Hinv.
  set (mrs := Nat.iter (Pos.to_nat pn) shr_1 _) in *.
  pose proof (shr_inv_quotient _ _ _ (Pos2Z.is_nonneg pn) Hinv) as [Qlo Qhi].
  pose proof (shr_inv_round _ _ _ (Pos2Z.is_nonneg pn) Hinv) as (Rb & Rerr & Rex).
  set (m2 := round_nearest_even (shr_m mrs) (loc_of_shr_record mrs)) in *.
  assert (Hm1 : 2 ^ 52 <= shr_m mrs < 2 ^ 53) by nia.
  assert (Hm2 : 2 ^ 52 <= m2 <= 2 ^ 53) by lia.
  destruct m2 as [|q|q] eqn:Em2; try lia.
  destruct (Z.eq_dec (Zpos q) (2 ^ 53)) as [Hcarry | Hnc].
  - (* the rounded mantissa has 54 digits: one more shift *)
    assert (Hq : q = 9007199254740992%positive) by (apply Pos2Z.inj; exact Hcarry).
    subst q. cbn [Zdigits2 digits2_pos Pos.succ shr_record_of_loc].
    rewrite fexp_eq.
    replace (Z.max (54 + (E + Zpos pn) - 53) (-1074) - (E + Zpos pn)) with 1 by lia.
    cbn [shr iter_pos shr_1 shr_m].
    replace (E + Zpos pn + 1 <=? emax - prec) with true
      by (symmetry; apply Z.leb_le; unfold emax, prec; lia).
    exists 4503599627370496%positive, (E + Zpos pn + 1).
    split; [reflexivity|]. split; [|split; [lia|split]].
    + apply bounded_iff. cbn [digits2_pos Pos.succ]. lia.
    + replace (E + Zpos pn + 1 - E + 1) with (1 + (Zpos pn + 1)) by lia.
      rewrite Z.pow_add_r by lia.
      replace (Zpos 4503599627370496 * (2 ^ 1 * 2 ^ (Zpos pn + 1)))
        with (2 ^ 53 * 2 ^ (Zpos pn + 1)) by (change (2 ^ 1) with 2; lia).
      rewrite <- Hcarry. exact Rerr.
    + intros Hmod. apply Rex in Hmod.
      replace (E + Zpos pn + 1 - E) with (1 + Zpos pn) by lia.
      rewrite Z.pow_add_r by lia. rewrite <- Hmod, Hcarry.
      change (2 ^ 1) with 2. lia.
  - assert (Hdq : Zpos (digits2_pos q) = 53).
    { apply digits2_pos_unique. change (53 - 1) with 52. lia. }
    cbn [Zdigits2 shr_record_of_loc]. rewrite Hdq, fexp_eq.
    replace (Z.max (53 + (E + Zpos pn) - 53) (-1074) - (E + Zpos pn)) with 0 by lia.
    cbn [shr shr_m].
    replace (E + Zpos pn <=? emax - prec) with true
      by (symmetry; apply Z.leb_le; unfold emax, prec; lia).
    exists q, (E + Zpos pn).
    split; [reflexivity|]. split; [|split; [lia|split]].
    + apply bounded_iff. rewrite Hdq. lia.
    + replace (E + Zpos pn - E + 1) with (Zpos pn + 1) by lia. exact Rerr.
    + intros Hmod. apply Rex in Hmod.
      replace (E + Zpos pn - E) with (Zpos pn) by lia. exact Hmod.
Qed.

Lemma digits2_pos_mul_pow2 (p q : positive) (k : Z) :
  0 <= k -> Zpos q = Zpos p * 2 ^ k ->
  Zpos (digits2_pos q) = Zpos (digits2_pos p) + k.
Proof.
  intros Hk Hq. pose proof (digits2_pos_bounds p) as [Blo Bhi].
  assert (0 < 2 ^ k) by (apply Z.pow_pos_nonneg; lia).
  apply digits2_pos_unique. rewrite Hq.
  replace (Zpos (digits2_pos p) + k - 1) with ((Zpos (digits2_pos p) - 1) + k) by lia.
  rewrite !Z.pow_add_r by lia. nia.
Qed.

Lemma pos_iter_xO (m d : positive) :
  Zpos (Pos.iter xO m d) = Zpos m * 2 ^ Zpos d.
Proof.
  induction d as [|d IH] using Pos.peano_ind.
  - cbn. lia.
  - rewrite Pos.iter_succ, Pos2Z.inj_xO, IH, Pos2Z.inj_succ, Z.pow_succ_r by lia. lia.
Qed.

Lemma shl_align_lower (mx : positive) (ex ex' : Z) :
  ex' <= ex ->
  snd (shl_align mx ex ex') = ex' /\
  Zpos (fst (shl_align mx ex ex')) = Zpos mx * 2 ^ (ex - ex').
Proof.
  intros H. unfold shl_align.
  destruct (ex' - ex) as [|d|d] eqn:Ed; try lia; cbn [fst snd].
  - replace (ex - ex') with 0 by lia. split; lia.
  - rewrite pos_iter_xO. replace (ex - ex') with (Zpos d) by lia. split; lia.
Qed.

Lemma shl_align_higher (mx : positive) (ex ex' : Z) :
  ex <= ex' -> shl_align mx ex ex' = (mx, ex).
Proof.
  intros H. unfold shl_align. destruct (ex' - ex) eqn:Ed; try reflexivity; lia.
Qed.

(** [binary_round] on a mantissa and an exponent in range: a canonical
    number, at relative distance at most 2^-53 of the value, and the
    value itself when the mantissa has at most 53 significant digits. *)
Lemma binary_round_units (s : bool) (M : positive) (E : Z) :
  let d := Zpos (digits2_pos M) in
  -1074 <= E -> d + E <= 1023 ->
  exists m e,
    binary_round prec emax s M E = S754_finite s m e /\
    bounded prec emax m e = true /\
    2 ^ 53 * Z.abs (Zpos m * 2 ^ (e + 1074) - Zpos M * 2 ^ (E + 1074))
      <= Zpos M * 2 ^ (E + 1074) /\
    (d <= 53 \/ Zpos M mod 2 ^ (d - 53) = 0 ->
     Zpos m * 2 ^ (e + 1074) = Zpos M * 2 ^ (E + 1074)).
Proof.
  intros d HE Hd. unfold binary_round. fold d. rewrite fexp_eq.
  set (e1 := Z.max (d + E - 53) (-1074)).
  assert (HU : 0 < 2 ^ (E + 1074)) by (apply Z.pow_pos_nonneg; lia).
  destruct (Z.le_gt_cases e1 E) as [Hle | Hgt].
  - (* the mantissa is shifted left, or kept: the value is exact *)
    destruct (shl_align_lower M E e1 Hle) as [Hsnd Hfst].
    destruct (shl_align M E e1) as [mz ez]. cbn [fst snd] in *. subst ez.
    exists mz, e1. rewrite binary_round_aux_bounded.
    + split; [reflexivity|].
      assert (Hval : Zpos mz * 2 ^ (e1 + 1074) = Zpos M * 2 ^ (E + 1074)).
      { rewrite Hfst, <- Z.mul_assoc, <- Z.pow_add_r by (unfold e1; lia).
        do 2 f_equal. lia. }
      split; [|split].
      * apply bounded_iff.
        rewrite (digits2_pos_mul_pow2 M mz (E - e1)) by (try lia; exact Hfst).
        fold d. unfold e1 in *. lia.
      * rewrite Hval, Z.sub_diag. change (Z.abs 0) with 0.
        rewrite Z.mul_0_r. apply Z.mul_nonneg_nonneg; lia.
      * intros _. exact Hval.
    + apply bounded_iff.
      rewrite (digits2_pos_mul_pow2 M mz (E - e1)) by (try lia; exact Hfst).
      fold d. unfold e1 in *. lia.
  - (* the mantissa has more than 53 digits: it is rounded *)
    rewrite shl_align_higher by lia.
    assert (He1 : e1 = d + E - 53) by (unfold e1 in *; lia).
    destruct (binary_round_aux_round s M E) as (m & e & Hr & Hb & Hge & Herr & Hex);
      fold d; try lia.
    fold d in Hge, Herr, Hex.
    exists m, e. split; [exact Hr|]. split; [exact Hb|].
    pose proof (digits2_pos_bounds M) as [Blo _]. fold d in Blo.
    assert (Hp : 0 < 2 ^ (d - 53)) by (apply Z.pow_pos_nonneg; lia).
    assert (Hd2 : 2 ^ (d - 1) = 2 ^ 52 * 2 ^ (d - 53)).
    { rewrite <- Z.pow_add_r by lia. f_equal. lia. }
    assert (Hm : 2 * (Zpos m * 2 ^ (e + 1074))
                 = Zpos m * 2 ^ (e - E + 1) * 2 ^ (E + 1074)).
    { rewrite <- Z.mul_assoc, <- Z.pow_add_r by lia.
      replace (e - E + 1 + (E + 1074)) with (Z.succ (e + 1074)) by lia.
      rewrite Z.pow_succ_r by lia. lia. }
    split.
    + change (2 ^ 53) with (2 * 2 ^ 52).
      set (a := 2 ^ (E + 1074)) in *. set (b := 2 ^ (d - 53)) in *.
      set (x := Zpos m * 2 ^ (e + 1074)) in *.
      set (y := Zpos m * 2 ^ (e - E + 1)) in *.
      set (c := 2 ^ 52) in *.
      assert (0 < c) by (unfold c; lia).
      assert (Z.abs (2 * (Zpos M * a) - 2 * x) <= b * a).
      { rewrite Hm. replace (2 * (Zpos M * a) - y * a) with ((2 * Zpos M - y) * a) by lia.
        rewrite Z.abs_mul, (Z.abs_eq a) by lia. nia. }
      nia.
    + intros [Hsmall | Hmod]; [lia|].
      apply Hex in Hmod.
      rewrite <- Hmod, <- Z.mul_assoc, <- Z.pow_add_r by lia.
      do 2 f_equal. lia.
Qed.

Lemma bounded_exponent (m : positive) (e : Z) :
  bounded prec emax m e = true -> -1074 <= e <= 971.
Proof. intros H. apply bounded_iff in H. lia. Qed.

Lemma units_finite (s : bool) (m : positive) (e : Z) :
  units (S754_finite s m e) = (if s then -1 else 1) * (Zpos m * 2 ^ (e + 1074)).
Proof. reflexivity. Qed.

(** [binary_normalize] on an integer mantissa and an exponent in range. *)
Lemma binary_normalize_units (M E : Z) :
  -1074 <= E -> Z.abs M * 2 ^ (E + 1074) < 2 ^ 2097 ->
  let r := binary_normalize prec emax M E false in
  is_finite r = true /\ valid r = true /\
  2 ^ 53 * Z.abs (units r - M * 2 ^ (E + 1074)) <= Z.abs M * 2 ^ (E + 1074) /\
  (Z.abs M < 2 ^ 53 -> units r = M * 2 ^ (E + 1074)).
Proof.
  intros HE Hmax r. subst r.
  assert (HU : 0 < 2 ^ (E + 1074)) by (apply Z.pow_pos_nonneg; lia).
  assert (Hdig : forall p, Zpos p * 2 ^ (E + 1074) < 2 ^ 2097 ->
                           Zpos (digits2_pos p) + E <= 1023).
  { intros p Hp. pose proof (digits2_pos_bounds p) as [Blo _].
    assert (2 ^ (Zpos (digits2_pos p) - 1 + (E + 1074)) < 2 ^ 2097).
    { rewrite Z.pow_add_r by lia. nia. }
    apply Z.pow_lt_mono_r_iff in H; lia. }
  assert (Hsmall : forall p, Zpos p < 2 ^ 53 -> Zpos (digits2_pos p) <= 53).
  { intros p Hp. pose proof (digits2_pos_bounds p) as [Blo _].
    assert (2 ^ (Zpos (digits2_pos p) - 1) < 2 ^ 53) by lia.
    apply Z.pow_lt_mono_r_iff in H; lia. }
  destruct M as [|p|p]; cbn [binary_normalize].
  - cbn. repeat split; lia.
  - change (Z.abs (Zpos p)) with (Zpos p) in *.
    destruct (binary_round_units false p E HE (Hdig p Hmax))
      as (m & e & -> & Hb & Herr & Hex).
    cbn [is_finite valid valid_binary]. rewrite units_finite.
    split; [reflexivity|]. split; [exact Hb|]. split.
    + rewrite Z.mul_1_l. exact Herr.
    + intros Hp. rewrite Z.mul_1_l. apply Hex. left. now apply Hsmall.
  - change (Z.abs (Zneg p)) with (Zpos p) in *.
    destruct (binary_round_units true p E HE (Hdig p Hmax))
      as (m & e & -> & Hb & Herr & Hex).
    cbn [is_finite valid valid_binary]. rewrite units_finite.
    split; [reflexivity|]. split; [exact Hb|].
    replace (Zneg p * 2 ^ (E + 1074)) with (- (Zpos p * 2 ^ (E + 1074))) by lia.
    split.
    + replace (-1 * (Zpos m * 2 ^ (e + 1074)) - - (Zpos p * 2 ^ (E + 1074)))
        with (- (Zpos m * 2 ^ (e + 1074) - Zpos p * 2 ^ (E + 1074))) by lia.
      rewrite Z.abs_opp. exact Herr.
    + intros Hp. rewrite Hex; [lia|]. left. now apply Hsmall.
Qed.

(** Subtraction of finite numbers: the result is the exact difference
    rounded, at relative distance at most 2^-53. *)
Lemma Number_sub_units (x y : number) :
  is_finite x = true -> is_finite y = true ->
  valid x = true -> valid y = true ->
  Z.abs (units x - units y) < 2 ^ 2097 ->
  let r := SFsub prec emax x y in
  is_finite r = true /\ valid r = true /\
  2 ^ 53 * Z.abs (units r - (units x - units y)) <= Z.abs (units x - units y).
Proof.
  intros Fx Fy Vx Vy Hmax r. subst r.
  destruct x as [sx | sx | | sx mx ex], y as [sy | sy | | sy my ey];
    try discriminate.
  - destruct sx, sy; cbn; repeat split; lia.
  - cbn [SFsub is_finite valid valid_binary]. repeat split; [exact Vy|].
    rewrite !units_finite. cbn [units].
    replace ((if negb sy then -1 else 1) * (Zpos my * 2 ^ (ey + 1074))
             - (0 - (if sy then -1 else 1) * (Zpos my * 2 ^ (ey + 1074))))
      with 0 by (destruct sy; cbn [negb]; lia).
    cbn. lia.
  - cbn [SFsub is_finite valid valid_binary]. repeat split; [exact Vx|].
    cbn [units]. rewrite Z.sub_0_r, Z.sub_diag. cbn. lia.
  - cbn [SFsub]. cbn [valid valid_binary] in Vx, Vy.
    pose proof (bounded_exponent _ _ Vx). pose proof (bounded_exponent _ _ Vy).
    set (ez := Z.min ex ey).
    destruct (shl_align_lower mx ex ez ltac:(unfold ez; lia)) as [_ Hx].
    destruct (shl_align_lower my ey ez ltac:(unfold ez; lia)) as [_ Hy].
    rewrite Hx, Hy.
    set (M := cond_Zopp sx (Zpos mx * 2 ^ (ex - ez))
              - cond_Zopp sy (Zpos my * 2 ^ (ey - ez))).
    assert (HM : M * 2 ^ (ez + 1074)
                 = units (S754_finite sx mx ex) - units (S754_finite sy my ey)).
    { rewrite !units_finite. unfold M.
      replace (ex + 1074) with ((ex - ez) + (ez + 1074)) by lia.
      replace (ey + 1074) with ((ey - ez) + (ez + 1074)) by lia.
      rewrite (Z.pow_add_r 2 (ex - ez)), (Z.pow_add_r 2 (ey - ez))
        by (unfold ez; lia).
      destruct sx, sy; cbn [cond_Zopp]; cbv iota; lia. }
    assert (HU : 0 < 2 ^ (ez + 1074)) by (apply Z.pow_pos_nonneg; unfold ez; lia).
    assert (HaM : Z.abs M * 2 ^ (ez + 1074)
                  = Z.abs (units (S754_finite sx mx ex) - units (S754_finite sy my ey))).
    { rewrite <- HM, Z.abs_mul, (Z.abs_eq (2 ^ (ez + 1074))) by lia. reflexivity. }
    destruct (binary_normalize_units M ez ltac:(unfold ez; lia) ltac:(lia))
      as (Hf & Hv & Herr & _).
    rewrite HM, HaM in Herr. repeat split; assumption.
Qed.

(** ** Comparison *)

Lemma compare_canonical (m1 m2 : positive) (e1 e2 : Z) :
  bounded prec emax m1 e1 = true -> bounded prec emax m2 e2 = true ->
  match e1 ?= e2 with
  | Lt => Lt
  | Gt => Gt
  | Eq => Pos.compare_cont Eq m1 m2
  end = (Zpos m1 * 2 ^ (e1 + 1074) ?= Zpos m2 * 2 ^ (e2 + 1074)).
Proof.
  intros H1 H2. apply bounded_iff in H1 as [C1 B1], H2 as [C2 B2].
  pose proof (digits2_pos_bounds m1) as [L1 U1].
  pose proof (digits2_pos_bounds m2) as [L2 U2].
  assert (Hlt : forall ma mb ea eb,
             Z.max (Zpos (digits2_pos ma) + ea - 53) (-1074) = ea ->
             Z.max (Zpos (digits2_pos mb) + eb - 53) (-1074) = eb ->
             ea < eb ->
             Zpos ma * 2 ^ (ea + 1074) < Zpos mb * 2 ^ (eb + 1074)).
  { intros ma mb ea eb Ca Cb Hab.
    pose proof (digits2_pos_bounds ma) as [La Ua].
    pose proof (digits2_pos_bounds mb) as [Lb Ub].
    assert (Hdb : Zpos (digits2_pos mb) = 53) by lia.
    rewrite Hdb in Lb. change (53 - 1) with 52 in Lb.
    assert (Hda : Zpos (digits2_pos ma) <= 53) by lia.
    assert (Zpos ma < 2 ^ 53).
    { eapply Z.lt_le_trans; [exact Ua|]. apply Z.pow_le_mono_r; lia. }
    assert (0 < 2 ^ (ea + 1074)) by (apply Z.pow_pos_nonneg; lia).
    assert (2 * 2 ^ (ea + 1074) <= 2 ^ (eb + 1074)).
    { rewrite <- Z.pow_succ_r by lia. apply Z.pow_le_mono_r; lia. }
    change (2 ^ 53) with (2 * 2 ^ 52) in *. nia. }
  destruct (Z.compare_spec e1 e2) as [-> | Hc | Hc].
  - rewrite Pos.compare_cont_spec. cbn [Pos.switch_Eq].
    assert (0 < 2 ^ (e2 + 1074)) by (apply Z.pow_pos_nonneg; lia).
    change (Pos.compare m1 m2) with (Zpos m1 ?= Zpos m2).
    destruct (Z.compare_spec (Zpos m1) (Zpos m2)) as [Hm | Hm | Hm]; symmetry.
    + rewrite Hm. apply Z.compare_refl.
    + apply Z.compare_lt_iff. nia.
    + apply Z.compare_gt_iff. nia.
  - symmetry. apply Z.compare_lt_iff. now apply Hlt.
  - symmetry. apply Z.compare_gt_iff. now apply Hlt.
Qed.

Lemma Number_compare_units (x y : number) :
  is_finite x = true -> is_finite y = true ->
  valid x = true -> valid y = true ->
  SFcompare x y = Some (units x ?= units y).
Proof.
  intros Fx Fy Vx Vy.
  destruct x as [sx | sx | | sx mx ex], y as [sy | sy | | sy my ey];
    try discriminate; cbn [SFcompare units].
  - reflexivity.
  - f_equal. symmetry.
    assert (0 < Zpos my * 2 ^ (ey + 1074)).
    { pose proof (bounded_exponent _ _ Vy).
      apply Z.mul_pos_pos; [lia|apply Z.pow_pos_nonneg; lia]. }
    destruct sy; [apply Z.compare_gt_iff | apply Z.compare_lt_iff]; lia.
  - f_equal. symmetry.
    assert (0 < Zpos mx * 2 ^ (ex + 1074)).
    { pose proof (bounded_exponent _ _ Vx).
      apply Z.mul_pos_pos; [lia|apply Z.pow_pos_nonneg; lia]. }
    destruct sx; [apply Z.compare_lt_iff | apply Z.compare_gt_iff]; lia.
  - cbn [valid valid_binary] in Vx, Vy.
    pose proof (compare_canonical mx my ex ey Vx Vy) as Hc.
    assert (0 < Zpos mx * 2 ^ (ex + 1074)).
    { pose proof (bounded_exponent _ _ Vx).
      apply Z.mul_pos_pos; [lia|apply Z.pow_pos_nonneg; lia]. }
    assert (0 < Zpos my * 2 ^ (ey + 1074)).
    { pose proof (bounded_exponent _ _ Vy).
      apply Z.mul_pos_pos; [lia|apply Z.pow_pos_nonneg; lia]. }
    f_equal. destruct sx, sy.
    + replace (-1 * (Zpos mx * 2 ^ (ex + 1074))) with (- (Zpos mx * 2 ^ (ex + 1074))) by lia.
      replace (-1 * (Zpos my * 2 ^ (ey + 1074))) with (- (Zpos my * 2 ^ (ey + 1074))) by lia.
      rewrite Z.compare_opp, (Z.compare_antisym (Zpos mx * 2 ^ (ex + 1074))), <- Hc.
      destruct (ex ?= ey); reflexivity.
    + symmetry. apply Z.compare_lt_iff. lia.
    + symmetry. apply Z.compare_gt_iff. lia.
    + rewrite !Z.mul_1_l. exact Hc.
Qed.

Lemma Number_ltb_units (x y : number) :
  is_finite x = true -> is_finite y = true ->
  valid x = true -> valid y = true ->
  SFltb x y = (units x <? units y).
Proof.
  intros Fx Fy Vx Vy. unfold SFltb, Z.ltb.
  rewrite Number_compare_units by assumption. reflexivity.
Qed.

Lemma Number_leb_units (x y : number) :
  is_finite x = true -> is_finite y = true ->
  valid x = true -> valid y = true ->
  SFleb x y = (units x <=? units y).
Proof.
  intros Fx Fy Vx Vy. unfold SFleb, Z.leb.
  rewrite Number_compare_units by assumption.
  destruct (units x ?= units y); reflexivity.
Qed.

Lemma abs_units (x : number) :
  is_finite (SFabs x) = is_finite x /\
  valid (SFabs x) = valid x /\
  units (SFabs x) = Z.abs (units x).
Proof.
  destruct x as [s | s | | s m e]; cbn [SFabs is_finite valid valid_binary units];
    repeat split.
  assert (0 <= Zpos m * 2 ^ (e + 1074)).
  { destruct (Z.le_gt_cases 0 (e + 1074)).
    - apply Z.mul_nonneg_nonneg; [lia|apply Z.pow_nonneg; lia].
    - rewrite Z.pow_neg_r by lia. lia. }
  destruct s; lia.
Qed.

Lemma leb_abs_units (x b : number) :
  valid x = true -> valid b = true -> is_finite b = true ->
  Number_leb (Math_abs x) b = true ->
  is_finite x = true /\ Z.abs (units x) <= units b.
Proof.
  intros Vx Vb Fb H.
  assert (Fx : is_finite x = true).
  { destruct x as [s | s | | s m e]; try reflexivity;
      destruct b; try discriminate; cbn in H; discriminate. }
  split; [exact Fx|].
  destruct (abs_units x) as (Fa & Va & Ua).
  unfold Number_leb, Math_abs in H.
  rewrite Number_leb_units in H by congruence.
  apply Z.leb_le in H. lia.
Qed.

(** The two subtractions of the reconciliation test give the amount back,
    up to the rounding of each: for a balance and an amount of magnitude
    at most 2^32, the distance is at most 2^-19. *)
Lemma double_subtraction_units (p a : number) :
  is_finite p = true -> is_finite a = true ->
  valid p = true -> valid a = true ->
  Z.abs (units p) <= 2 ^ 1106 -> Z.abs (units a) <= 2 ^ 1106 ->
  let d := Math_abs (Number_sub p (Number_sub p a)) in
  is_finite d = true /\ valid d = true /\
  Z.abs (units d - Z.abs (units a)) <= 2 ^ 1055.
Proof.
  intros Fp Fa Vp Va Bp Ba d. subst d.
  destruct (Number_sub_units p a Fp Fa Vp Va) as (F1 & V1 & E1); [lia|].
  fold (Number_sub p a) in F1, V1, E1.
  set (r := Number_sub p a) in *.
  destruct (Number_sub_units p r Fp F1 Vp V1) as (F2 & V2 & E2); [lia|].
  fold (Number_sub p r) in F2, V2, E2.
  destruct (abs_units (Number_sub p r)) as (Fd & Vd & Ud).
  unfold Math_abs. rewrite Fd, Vd, Ud.
  split; [exact F2|]. split; [exact V2|]. lia.
Qed.

(** ** Every rounded result is a binary64 value *)

Lemma Zdigits2_bounds (m : Z) :
  0 <= m -> 0 <= Zdigits2 m /\ m < 2 ^ Zdigits2 m /\
  (0 < m -> 2 ^ (Zdigits2 m - 1) <= m).
Proof.
  intros Hm. destruct m as [|p|p]; try lia; cbn [Zdigits2].
  - cbn. lia.
  - pose proof (digits2_pos_bounds p). lia.
Qed.

Lemma shr_m_iter (n : nat) (mrs : shr_record) :
  0 <= shr_m mrs ->
  shr_m (Nat.iter n shr_1 mrs) = shr_m mrs / 2 ^ Z.of_nat n.
Proof.
  intros Hm. induction n as [|n IH].
  - cbn. now rewrite Z.div_1_r.
  - change (Nat.iter (S n) shr_1 mrs) with (shr_1 (Nat.iter n shr_1 mrs)).
    assert (Hn : 0 <= shr_m (Nat.iter n shr_1 mrs)).
    { rewrite IH. apply Z.div_pos; [lia|apply Z.pow_pos_nonneg; lia]. }
    remember (Nat.iter n shr_1 mrs) as it eqn:Eit.
    destruct it as [m r s]. cbn [shr_m] in IH, Hn.
    rewrite shr_1_nonneg by exact Hn. cbn [shr_m].
    rewrite IH, Nat2Z.inj_succ, Z.pow_succ_r, Z.div_div by
      (try apply Z.pow_pos_nonneg; lia).
    f_equal. lia.
Qed.

Lemma shr_mantissa (mrs : shr_record) (e n : Z) :
  0 <= shr_m mrs ->
  shr_m (fst (shr mrs e n)) = shr_m mrs / 2 ^ Z.max n 0 /\
  snd (shr mrs e n) = e + Z.max n 0.
Proof.
  intros Hm. unfold shr. destruct n as [|p|p]; cbn [fst snd].
  - cbn. rewrite Z.div_1_r. split; lia.
  - rewrite iter_pos_nat, shr_m_iter, positive_nat_Z by exact Hm.
    replace (Z.max (Zpos p) 0) with (Zpos p) by lia. split; reflexivity.
  - replace (Z.max (Zneg p) 0) with 0 by lia. cbn. rewrite Z.div_1_r. split; lia.
Qed.

Lemma round_nearest_even_bounds (m : Z) (l : location) :
  m <= round_nearest_even m l <= m + 1.
Proof.
  destruct l as [|[| |]]; cbn [round_nearest_even]; try lia.
  destruct (Z.even m); lia.
Qed.

Lemma shr_m_record_of_loc (m : Z) (l : location) :
  shr_m (shr_record_of_loc m l) = m.
Proof. destruct l as [|[| |]]; reflexivity. Qed.

Lemma binary_round_aux_valid (s : bool) (M E : Z) (l : location) :
  0 <= M -> E <= fexp prec emax (Zdigits2 M + E) ->
  valid (binary_round_aux prec emax s M E l) = true.
Proof.
  intros HM HE. rewrite fexp_eq in HE.
  destruct (Zdigits2_bounds M HM) as (Hd0 & Hdu & Hdl).
  set (d := Zdigits2 M) in *.
  set (e1 := Z.max (d + E - 53) (-1074)) in *.
  unfold binary_round_aux, shr_fexp. fold d. rewrite fexp_eq. fold e1.
  pose proof (shr_mantissa (shr_record_of_loc M l) E (e1 - E)) as [Hm1 He1];
    [rewrite shr_m_record_of_loc; exact HM|].
  rewrite shr_m_record_of_loc in Hm1.
  replace (Z.max (e1 - E) 0) with (e1 - E) in Hm1, He1 by lia.
  replace (E + (e1 - E)) with e1 in He1 by lia.
  destruct (shr (shr_record_of_loc M l) E (e1 - E)) as [mrs' e'].
  cbn [fst snd] in Hm1, He1. subst e'.
  set (m1 := shr_m mrs') in *.
  pose proof (round_nearest_even_bounds m1 (loc_of_shr_record mrs')) as Hm2.
  set (m2 := round_nearest_even m1 (loc_of_shr_record mrs')) in *.
  assert (Hp : 0 < 2 ^ (e1 - E)) by (apply Z.pow_pos_nonneg; lia).
  assert (Hq : m1 * 2 ^ (e1 - E) <= M < (m1 + 1) * 2 ^ (e1 - E)).
  { rewrite Hm1. pose proof (Z.div_mod M (2 ^ (e1 - E)) ltac:(lia)).
    pose proof (Z.mod_pos_bound M (2 ^ (e1 - E)) Hp). nia. }
  assert (Hm1lo : 0 <= m1) by (rewrite Hm1; apply Z.div_pos; lia).
  assert (Hm1hi : m1 < 2 ^ 53).
  { assert (2 ^ d <= 2 ^ 53 * 2 ^ (e1 - E)).
    { rewrite <- Z.pow_add_r by lia. apply Z.pow_le_mono_r; lia. }
    nia. }
  assert (Hnorm : e1 <> -1074 -> 2 ^ 52 <= m1).
  { intros Hne. assert (He : e1 = d + E - 53) by lia.
    assert (0 < M).
    { destruct (Z.eq_dec M 0) as [-> |]; [|lia]. cbn in d. lia. }
    specialize (Hdl H).
    assert (2 ^ (d - 1) = 2 ^ 52 * 2 ^ (e1 - E)).
    { rewrite <- Z.pow_add_r by lia. f_equal. lia. }
    nia. }
  pose proof (shr_mantissa (shr_record_of_loc m2 loc_Exact) e1
                (fexp prec emax (Zdigits2 m2 + e1) - e1)) as [Hm3 He3];
    [rewrite shr_m_record_of_loc; lia|].
  rewrite shr_m_record_of_loc, fexp_eq in Hm3. rewrite fexp_eq in He3.
  rewrite fexp_eq.
  destruct (shr (shr_record_of_loc m2 loc_Exact) e1 _) as [mrs'' e''].
  cbn [fst snd] in Hm3, He3.
  destruct (Zdigits2_bounds m2 ltac:(lia)) as (Hd2 & Hd2u & Hd2l).
  set (d2 := Zdigits2 m2) in *.
  destruct (Z.eq_dec m2 0) as [Hz | Hnz].
  - rewrite Hm3, Hz, Z.div_0_l by (apply Z.pow_nonzero; lia). reflexivity.
  - assert (Hpos : 0 < m2) by lia. specialize (Hd2l Hpos).
    destruct (Z.eq_dec m2 (2 ^ 53)) as [Hc | Hnc].
    + assert (Hd254 : d2 = 54).
      { unfold d2. rewrite Hc. reflexivity. }
      rewrite Hd254 in Hm3, He3.
      replace (Z.max (Z.max (54 + e1 - 53) (-1074) - e1) 0) with 1 in Hm3, He3 by lia.
      rewrite Hm3, Hc. change (2 ^ 53 / 2 ^ 1) with (Zpos 4503599627370496).
      destruct (e'' <=? emax - prec) eqn:Hle; [|reflexivity].
      cbn [valid valid_binary]. apply bounded_iff.
      apply Z.leb_le in Hle. unfold emax, prec in Hle.
      cbn [digits2_pos Pos.succ]. lia.
    + assert (Hd2le : d2 <= 53).
      { assert (2 ^ (d2 - 1) < 2 ^ 53) by lia.
        apply Z.pow_lt_mono_r_iff in H; lia. }
      replace (Z.max (Z.max (d2 + e1 - 53) (-1074) - e1) 0) with 0 in Hm3, He3 by lia.
      rewrite Hm3. change (2 ^ 0) with 1. rewrite Z.div_1_r.
      destruct m2 as [|q|q] eqn:Em2; try lia.
      destruct (e'' <=? emax - prec) eqn:Hle; [|reflexivity].
      cbn [valid valid_binary]. apply bounded_iff.
      apply Z.leb_le in Hle. unfold emax, prec in Hle.
      cbn [Zdigits2] in d2. fold d2.
      split; [|lia].
      destruct (Z.eq_dec e1 (-1074)) as [He | He]; [lia|].
      specialize (Hnorm He).
      assert (d2 = 53); [|lia].
      apply digits2_pos_unique. change (53 - 1) with 52. lia.
Qed.

Lemma SFdiv_core_binary_shape (m1 e1 m2 e2 : Z) :
  0 < m1 -> 0 < m2 ->
  exists q e l,
    SFdiv_core_binary prec emax m1 e1 m2 e2 = (q, e, l) /\
    0 <= q /\ e <= fexp prec emax (Zdigits2 q + e).
Proof.
  intros H1 H2. unfold SFdiv_core_binary.
  destruct (Zdigits2_bounds m1 ltac:(lia)) as (D1 & U1 & L1). specialize (L1 H1).
  destruct (Zdigits2_bounds m2 ltac:(lia)) as (D2 & U2 & L2). specialize (L2 H2).
  set (d1 := Zdigits2 m1) in *. set (d2 := Zdigits2 m2) in *.
  assert (Hd1 : 1 <= d1).
  { destruct (Z.eq_dec d1 0) as [E | E]; [rewrite E in U1; cbn in U1|]; lia. }
  assert (Hd2 : 1 <= d2).
  { destruct (Z.eq_dec d2 0) as [E | E]; [rewrite E in U2; cbn in U2|]; lia. }
  rewrite fexp_eq.
  set (e' := Z.min (Z.max (d1 + e1 - (d2 + e2) - 53) (-1074)) (e1 - e2)).
  set (s := e1 - e2 - e').
  assert (Hs : 0 <= s) by (unfold s, e'; lia).
  set (m' := match s with Zpos _ => Z.shiftl m1 s | Z0 => m1 | Zneg _ => 0 end).
  assert (Hm' : m' = m1 * 2 ^ s).
  { unfold m'. clearbody s. destruct s as [|p|p].
    - rewrite Z.pow_0_r. lia.
    - apply Z.shiftl_mul_pow2. lia.
    - lia. }
  pose proof (Z_div_mod m' m2 ltac:(lia)) as Hdiv.
  destruct (Z.div_eucl m' m2) as [q r]. destruct Hdiv as [Heq Hr].
  exists q, e', (new_location m2 r). split; [reflexivity|].
  assert (Hp : 0 < 2 ^ s) by (apply Z.pow_pos_nonneg; lia).
  assert (Hq : 0 <= q) by nia.
  split; [exact Hq|]. rewrite fexp_eq.
  destruct (Z.le_gt_cases e' (-1074)) as [Hlow | Hhigh]; [lia|].
  assert (HK : 53 <= d1 + s - d2) by (unfold s, e' in *; lia).
  assert (Hbig : 2 ^ (d1 - 1 + s - d2) <= q).
  { assert (Hmlo : 2 ^ (d1 - 1 + s - d2) * 2 ^ d2 <= m').
    { rewrite <- Z.pow_add_r by lia. rewrite Hm'.
      replace (d1 - 1 + s - d2 + d2) with ((d1 - 1) + s) by lia.
      rewrite Z.pow_add_r by lia. nia. }
    assert (0 < 2 ^ (d1 - 1 + s - d2)) by (apply Z.pow_pos_nonneg; lia).
    assert (q + 1 > 2 ^ (d1 - 1 + s - d2)) by nia.
    lia. }
  destruct (Zdigits2_bounds q Hq) as (Dq & Uq & _).
  assert (d1 - 1 + s - d2 < Zdigits2 q).
  { apply (Z.pow_lt_mono_r_iff 2); lia. }
  lia.
Qed.

Lemma Number_of_ratio_valid (neg : bool) (n d : positive) :
  valid (Number_of_ratio neg n d) = true.
Proof.
  unfold Number_of_ratio.
  destruct (SFdiv_core_binary_shape (Zpos n) 0 (Zpos d) 0) as (q & e & l & -> & Hq & He);
    try lia.
  now apply binary_round_aux_valid.
Qed.

Lemma Number_div_valid (x y : number) :
  valid (SFdiv prec emax x y) = true.
Proof.
  destruct x as [sx | sx | | sx mx ex], y as [sy | sy | | sy my ey];
    try reflexivity.
  cbn [SFdiv].
  destruct (SFdiv_core_binary_shape (Zpos mx) ex (Zpos my) ey) as (q & e & l & -> & Hq & He);
    try lia.
  now apply binary_round_aux_valid.
Qed.

(** ** The reconciliation branch *)

Lemma reconciles_within_tolerance (balance : jsstring) (amount : number) :
  reconciles balance amount
  = within_tolerance
      (parseFloat (replace_non_numeric balance) - amount)%js
      (parseFloat (replace_non_numeric balance)).
Proof.
  unfold reconciles, within_tolerance. cbv zeta. now rewrite Math_abs_sub_comm.
Qed.

(** C1. The claim compares the balance fetched after the reported failure
    with the balance before the attempt less the amount.  The handler has
    no balance from before the attempt: it takes the number parsed from
    the fetched balance as the previous balance, so its test is the
    claim's comparison with the fetched balance in the place of the
    previous one.  With 1000 in the wallet before the attempt, an amount
    of 50 and a fetched balance of "$950.00" the payment has gone through
    and the claim's comparison holds (950 against 950); the handler
    computes |950 - 900| = 50, sets and notifies the reported message and
    stores nothing. *)
Theorem reconciliation_takes_fetched_for_previous :
  (forall (balance : jsstring) (amount : number),
      reconciles balance amount
      = within_tolerance
          (parseFloat (replace_non_numeric balance) - amount)%js
          (parseFloat (replace_non_numeric balance))) /\
  let previous := Number_of_Z 1000 in
  let amount := Number_of_Z 50 in
  let fetched := str "$950.00" in
  let c := mounted (draft amount) (Holds (JArray [])) in
  let c' := handleSubmit (world (Returns declined) (Returns fetched)) ada c in
  within_tolerance (previous - amount)%js
                   (parseFloat (replace_non_numeric fetched)) = true /\
  reconciles fetched amount = false /\
  events c' = [PaymentCall (draft amount) (str "Ada"); BalanceCall;
               Toast (str "Payment Failed") (message declined) true] /\
  error (ui c') = Some (message declined) /\
  bookedSessions c' = bookedSessions c.
Proof.
  split; [exact reconciles_within_tolerance|].
  vm_compute. repeat split.
Qed.

(** C3. When the payment call reports failure and the reconciliation test
    holds, the handler takes the success path: it notifies success, and
    from there on does what it does when success is reported: the same
    calls follow, the same item is in the store and the same state is
    reached.  When the store takes the record, the record is appended to
    the stored list and the two callbacks are called, in both runs. *)
Theorem reconciled_failure_takes_success_path
  (w : World) (mentor : Mentor.t) (c : Config)
  (res ok : PaymentResult) (balance : jsstring) :
  missing_required (formData (ui c)) = false ->
  makePaymentFromCart w (formData (ui c)) (Mentor.name mentor) = Returns res ->
  success res = false ->
  getWalletBalance w = Returns balance ->
  reconciles balance (paymentAmount (formData (ui c))) = true ->
  success ok = true ->
  let c' := handleSubmit w mentor c in
  let s' := handleSubmit (reporting w ok) mentor c in
  let pay := PaymentCall (formData (ui c)) (Mentor.name mentor) in
  let details := sessionDetails w mentor (formData (ui c)) in
  (exists rest,
      events c' = events c ++ [pay; BalanceCall; payment_successful] ++ rest /\
      events s' = events c ++ [pay; payment_successful] ++ rest) /\
  bookedSessions c' = bookedSessions s' /\
  ui c' = ui s' /\
  (storable w c details = true ->
   events c' = events c ++ [pay; BalanceCall; payment_successful; OnClose; OnSuccess] /\
   events s' = events c ++ [pay; payment_successful; OnClose; OnSuccess] /\
   bookedSessions c'
   = Holds (JArray (storedRecords c ++ [JSON_of_session details]))).
Proof.
  intros Hvalid Hpay Hfail Hbal Hrec Hok c' s' pay details.
  subst c' s' pay details. unfold handleSubmit.
  cbn [reporting makePaymentFromCart getWalletBalance].
  rewrite Hvalid, Hpay, Hfail, Hbal, Hrec, Hok. cbn [negb].
  change (storeSession (reporting w ok) mentor c)
    with (storeSession w mentor c).
  unfold storeSession.
  destruct (appendSession_cases w c (sessionDetails w mentor (formData (ui c))))
    as [[Hs ->] | [Hs [err ->]]]; rewrite Hs.
  - split; [exists [OnClose; OnSuccess]; split; reflexivity|].
    repeat split.
  - split; [eexists; split; reflexivity|].
    split; [reflexivity|]. split; [reflexivity | discriminate].
Qed.

Lemma reconciled_failure_takes_success_path_witness :
  let c := mounted (draft (S754_zero false)) (Holds (JArray [])) in
  let c' := handleSubmit (world (Returns declined) (Returns (str "$1,000.00"))) ada c in
  events c' =
    [PaymentCall (draft (S754_zero false)) (str "Ada"); BalanceCall;
     payment_successful; OnClose; OnSuccess] /\
  List.length (storedRecords c') = 1%nat.
Proof.
  destruct (reconciled_failure_takes_success_path
              (world (Returns declined) (Returns (str "$1,000.00"))) ada
              (mounted (draft (S754_zero false)) (Holds (JArray []))) declined accepted
              (str "$1,000.00") eq_refl eq_refl eq_refl eq_refl eq_refl eq_refl)
    as (_ & _ & _ & H).
  destruct (H eq_refl) as (He & _ & Hs).
  split; [exact He|].
  unfold storedRecords. rewrite Hs. reflexivity.
Defined.

(** C10. When the balance string holds no number (parsing what is left of
    it after the deletion of the non-numeric characters gives [NaN]), the
    reconciliation test does not hold: the handler takes the failure
    branch, sets and notifies the reported message, and stores nothing. *)
Theorem unparseable_balance_is_failure
  (w : World) (mentor : Mentor.t) (c : Config)
  (res : PaymentResult) (balance : jsstring) :
  missing_required (formData (ui c)) = false ->
  makePaymentFromCart w (formData (ui c)) (Mentor.name mentor) = Returns res ->
  success res = false ->
  getWalletBalance w = Returns balance ->
  parseFloat (replace_non_numeric balance) = NaN ->
  let c' := handleSubmit w mentor c in
  reconciles balance (paymentAmount (formData (ui c))) = false /\
  error (ui c') = Some (message res) /\
  events c' = events c ++
    [PaymentCall (formData (ui c)) (Mentor.name mentor); BalanceCall;
     Toast (str "Payment Failed") (message res) true] /\
  bookedSessions c' = bookedSessions c /\
  isSubmitting (ui c') = false.
Proof.
  intros Hvalid Hpay Hfail Hbal Hnan c'.
  assert (Hrec : reconciles balance (paymentAmount (formData (ui c))) = false).
  { unfold reconciles. cbv zeta. rewrite Hnan.
    now rewrite !Number_sub_NaN_l. }
  subst c'. unfold handleSubmit.
  rewrite Hvalid, Hpay, Hfail, Hbal, Hrec. cbn. repeat split.
Qed.

Lemma unparseable_balance_is_failure_witness :
  let c := mounted (draft (S754_zero false)) (Holds (JArray [])) in
  let c' := handleSubmit (world (Returns declined) (Returns (str "N/A"))) ada c in
  parseFloat (replace_non_numeric (str "N/A")) = NaN /\
  error (ui c') = Some (str "Insufficient funds") /\
  bookedSessions c' = Holds (JArray []).
Proof.
  split; [reflexivity|].
  destruct (unparseable_balance_is_failure
              (world (Returns declined) (Returns (str "N/A"))) ada
              (mounted (draft (S754_zero false)) (Holds (JArray []))) declined (str "N/A")
              eq_refl eq_refl eq_refl eq_refl eq_refl)
    as (_ & He & _ & Hs & _).
  split; assumption.
Defined.

(** ** The reconciliation test is a test on the amount *)

Lemma Number_of_decimal_valid (neg : bool) (n e10 : Z) :
  valid (Number_of_decimal neg n e10) = true.
Proof.
  unfold Number_of_decimal. destruct n as [|p|p]; try reflexivity.
  destruct (0 <=? e10); apply Number_of_ratio_valid.
Qed.

Lemma parseFloat_valid (input : jsstring) : valid (parseFloat input) = true.
Proof.
  unfold parseFloat.
  destruct (match trimStart input with
            | 43%N :: r => (false, r)
            | 45%N :: r => (true, r)
            | _ => (false, trimStart input)
            end) as [neg s1].
  destruct (starts_with (str "Infinity") s1); [reflexivity|].
  destruct (span_digits s1) as [ip r1].
  destruct (match r1 with 46%N :: r => span_digits r | _ => ([], r1) end) as [fp r2].
  destruct (ip ++ fp); [reflexivity|]. apply Number_of_decimal_valid.
Qed.

(** For a balance and an amount of magnitude at most 2^32, the test
    [Math.abs(previousBalance - expectedBalance) < 0.01] fails when the
    amount is at least 0.010002 in magnitude and holds when it is at most
    0.009998. *)
Lemma reconciliation_decided_by_amount (p a : number) :
  valid p = true -> valid a = true ->
  (Math_abs p <=? magnitude_bound)%js = true ->
  (Math_abs a <=? magnitude_bound)%js = true ->
  ((above_tolerance <=? Math_abs a)%js = true ->
   (Math_abs (p - (p - a)) <? tolerance)%js = false) /\
  ((Math_abs a <=? below_tolerance)%js = true ->
   (Math_abs (p - (p - a)) <? tolerance)%js = true).
Proof.
  intros Vp Va Bp Ba.
  destruct (leb_abs_units p magnitude_bound Vp eq_refl eq_refl Bp) as [Fp Up].
  destruct (leb_abs_units a magnitude_bound Va eq_refl eq_refl Ba) as [Fa Ua].
  assert (Hb : units magnitude_bound = 2 ^ 1106) by (vm_compute; reflexivity).
  rewrite Hb in Up, Ua.
  destruct (double_subtraction_units p a Fp Fa Vp Va Up Ua) as (Fd & Vd & Ed).
  unfold Number_ltb.
  rewrite Number_ltb_units by (try assumption; reflexivity).
  destruct (abs_units a) as (Faa & Vaa & Uaa).
  rewrite Fa in Faa. rewrite Va in Vaa. fold (Math_abs a) in Faa, Vaa, Uaa.
  split; intros H.
  - unfold Number_leb in H.
    rewrite Number_leb_units in H by (try assumption; reflexivity).
    apply Z.leb_le in H. rewrite Uaa in H.
    assert (Hc : (units tolerance + 2 ^ 1055 <=? units above_tolerance) = true)
      by (vm_compute; reflexivity).
    apply Z.leb_le in Hc. apply Z.ltb_ge. lia.
  - unfold Number_leb in H.
    rewrite Number_leb_units in H by (try assumption; reflexivity).
    apply Z.leb_le in H. rewrite Uaa in H.
    assert (Hc : (units below_tolerance + 2 ^ 1055 <? units tolerance) = true)
      by (vm_compute; reflexivity).
    apply Z.ltb_lt in Hc. apply Z.ltb_lt. lia.
Qed.

Lemma reconciles_decided_by_amount (balance : jsstring) (amount : number) :
  valid amount = true ->
  (Math_abs (parseFloat (replace_non_numeric balance)) <=? magnitude_bound)%js = true ->
  (Math_abs amount <=? magnitude_bound)%js = true ->
  ((above_tolerance <=? Math_abs amount)%js = true ->
   reconciles balance amount = false) /\
  ((Math_abs amount <=? below_tolerance)%js = true ->
   reconciles balance amount = true).
Proof.
  intros Va Bp Ba. unfold reconciles. cbv zeta.
  apply reconciliation_decided_by_amount; try assumption.
  apply parseFloat_valid.
Qed.

Lemma amount_against_tolerance (amount : number) :
  valid amount = true ->
  ((above_tolerance <=? Math_abs amount)%js = true ->
   (Math_abs amount <? tolerance)%js = false) /\
  ((Math_abs amount <=? below_tolerance)%js = true ->
   (Math_abs amount <? tolerance)%js = true).
Proof.
  intros Va.
  destruct amount as [s | s | | s m e].
  - split; intros H; [vm_compute in H; discriminate | vm_compute; reflexivity].
  - split; intros H; [vm_compute; reflexivity | vm_compute in H; discriminate].
  - split; intros H; vm_compute in H; discriminate.
  -
    destruct (abs_units (S754_finite s m e)) as (_ & Vaa & Ua).
    rewrite Va in Vaa.
    assert (Fa : is_finite (Math_abs (S754_finite s m e)) = true) by reflexivity.
    fold (Math_abs (S754_finite s m e)) in Vaa, Ua.
    unfold Number_leb, Number_ltb.
    rewrite Number_ltb_units by (try assumption; reflexivity).
    split; intros H;
      rewrite Number_leb_units in H by (try assumption; reflexivity);
      apply Z.leb_le in H.
    + assert (Hc : (units tolerance <=? units above_tolerance) = true)
        by (vm_compute; reflexivity).
      apply Z.leb_le in Hc. apply Z.ltb_ge. lia.
    + assert (Hc : (units below_tolerance <? units tolerance) = true)
        by (vm_compute; reflexivity).
      apply Z.ltb_lt in Hc. apply Z.ltb_lt. lia.
Qed.

(** The branch condition is false at a balance of 1000 and an amount of
    50: it is not true of every amount and every balance. *)
Lemma reconciliation_test_not_always_true :
  reconciles (str "$1,000.00") (Number_of_Z 50) = false /\
  error (ui (handleSubmit (world (Returns declined) (Returns (str "$1,000.00")))
                          ada (mounted (draft (Number_of_Z 50)) (Holds (JArray [])))))
    = Some (str "Insufficient funds") /\
  ~ (forall (balance : jsstring) (amount : number),
        reconciles balance amount = true).
Proof.
  split; [vm_compute; reflexivity|]. split; [vm_compute; reflexivity|].
  intros H. specialize (H (str "$1,000.00") (Number_of_Z 50)).
  vm_compute in H. discriminate.
Qed.

(** C2, amended. The branch condition compares the parsed balance with
    that balance minus the amount, so it tests the amount, not always
    true: for a balance and an amount of magnitude at most 2^32, it is
    false when the amount is at least 0.010002 in magnitude, and a
    reported failure is then given as a failure with the reported message;
    it is true when the amount is at most 0.009998 in magnitude, and a
    reported failure is then taken as a success: success is notified
    and, when the store takes the record, no error is set and the record
    is appended to the stored list. *)
Theorem reconciliation_test_is_on_amount
  (w : World) (mentor : Mentor.t) (c : Config)
  (res : PaymentResult) (balance : jsstring) :
  missing_required (formData (ui c)) = false ->
  makePaymentFromCart w (formData (ui c)) (Mentor.name mentor) = Returns res ->
  success res = false ->
  getWalletBalance w = Returns balance ->
  let amount := paymentAmount (formData (ui c)) in
  valid amount = true ->
  (Math_abs (parseFloat (replace_non_numeric balance)) <=? magnitude_bound)%js = true ->
  (Math_abs amount <=? magnitude_bound)%js = true ->
  ((above_tolerance <=? Math_abs amount)%js = true ->
   reconciles balance amount = false /\
   error (ui (handleSubmit w mentor c)) = Some (message res) /\
   bookedSessions (handleSubmit w mentor c) = bookedSessions c) /\
  ((Math_abs amount <=? below_tolerance)%js = true ->
   reconciles balance amount = true /\
   (exists rest,
       events (handleSubmit w mentor c)
       = events c ++ [PaymentCall (formData (ui c)) (Mentor.name mentor);
                      BalanceCall; payment_successful] ++ rest) /\
   (storable w c (sessionDetails w mentor (formData (ui c))) = true ->
    error (ui (handleSubmit w mentor c)) = None /\
    bookedSessions (handleSubmit w mentor c)
    = Holds (JArray (storedRecords c
        ++ [JSON_of_session (sessionDetails w mentor (formData (ui c)))])))).
Proof.
  intros Hvalid Hpay Hfail Hbal amount Va Bp Ba.
  destruct (reconciles_decided_by_amount balance amount Va Bp Ba) as [Hhi Hlo].
  unfold handleSubmit. rewrite Hvalid, Hpay, Hfail, Hbal. cbn [negb].
  fold amount.
  split; intros H; [rewrite (Hhi H); repeat split | rewrite (Hlo H)].
  split; [reflexivity|].
  destruct (storeSession_cases w mentor c
              [PaymentCall (formData (ui c)) (Mentor.name mentor);
               BalanceCall; payment_successful])
    as [[Hs ->] | [Hs (err & _ & ->)]]; rewrite Hs.
  - split; [exists [OnClose; OnSuccess]; reflexivity|].
    intros _. split; reflexivity.
  - split; [eexists; reflexivity | discriminate].
Qed.

Lemma reconciliation_test_is_on_amount_witness :
  reconciles (str "$1,000.00") (Number_of_Z 50) = false /\
  error (ui (handleSubmit (world (Returns declined) (Returns (str "$1,000.00")))
                          ada (mounted (draft (Number_of_Z 50)) (Holds (JArray [])))))
    = Some (str "Insufficient funds") /\
  bookedSessions (handleSubmit (world (Returns declined) (Returns (str "$1,000.00")))
                               ada (mounted (draft (Number_of_Z 50)) (Holds (JArray []))))
    = Holds (JArray []).
Proof.
  apply (reconciliation_test_is_on_amount
           (world (Returns declined) (Returns (str "$1,000.00"))) ada
           (mounted (draft (Number_of_Z 50)) (Holds (JArray []))) declined (str "$1,000.00")
           eq_refl eq_refl eq_refl eq_refl eq_refl eq_refl eq_refl).
  reflexivity.
Defined.

(** Two finite balances on which the branch differs for one amount: with
    an amount of 0.01, the test fails at a balance of 1 and holds at a
    balance of 1000, though 0.01 is not below 0.01; and with an amount of
    50 it fails at 1000 and holds at 2^60, where the subtraction absorbs
    the amount. *)
Lemma reconciliation_depends_on_balance :
  let cent := parseFloat (str "0.01") in
  is_finite (parseFloat (replace_non_numeric (str "$1.00"))) = true /\
  is_finite (parseFloat (replace_non_numeric (str "$1,000.00"))) = true /\
  reconciles (str "$1.00") cent = false /\
  reconciles (str "$1,000.00") cent = true /\
  (Math_abs cent <? tolerance)%js = false /\
  is_finite (parseFloat (replace_non_numeric (str "1152921504606846976"))) = true /\
  reconciles (str "$1,000.00") (Number_of_Z 50) = false /\
  reconciles (str "1152921504606846976") (Number_of_Z 50) = true /\
  ~ (forall (b1 b2 : jsstring) (amount : number),
        is_finite (parseFloat (replace_non_numeric b1)) = true ->
        is_finite (parseFloat (replace_non_numeric b2)) = true ->
        reconciles b1 amount = reconciles b2 amount).
Proof.
  cbv zeta. repeat (split; [vm_compute; reflexivity|]).
  intros H.
  specialize (H (str "$1.00") (str "$1,000.00") (parseFloat (str "0.01"))
                eq_refl eq_refl).
  vm_compute in H. discriminate.
Qed.

(** C9, amended. For one payment amount of magnitude at most 0.009998, or
    between 0.010002 and 2^32, and any two balances whose parsed values
    are at most 2^32 in magnitude, the same branch is taken: the test
    holds exactly when the amount is below 0.01 in magnitude. *)
Theorem reconciliation_independent_of_balance
  (balance1 balance2 : jsstring) (amount : number) :
  valid amount = true ->
  (Math_abs (parseFloat (replace_non_numeric balance1)) <=? magnitude_bound)%js = true ->
  (Math_abs (parseFloat (replace_non_numeric balance2)) <=? magnitude_bound)%js = true ->
  (Math_abs amount <=? magnitude_bound)%js = true ->
  (Math_abs amount <=? below_tolerance)%js = true \/
  (above_tolerance <=? Math_abs amount)%js = true ->
  reconciles balance1 amount = reconciles balance2 amount /\
  reconciles balance1 amount = (Math_abs amount <? tolerance)%js.
Proof.
  intros Va B1 B2 Ba Hamt.
  destruct (reconciles_decided_by_amount balance1 amount Va B1 Ba) as [Hhi1 Hlo1].
  destruct (reconciles_decided_by_amount balance2 amount Va B2 Ba) as [Hhi2 Hlo2].
  destruct (amount_against_tolerance amount Va) as [Thi Tlo].
  destruct Hamt as [H | H].
  - rewrite (Hlo1 H), (Hlo2 H), (Tlo H). split; reflexivity.
  - rewrite (Hhi1 H), (Hhi2 H), (Thi H). split; reflexivity.
Qed.

Lemma reconciliation_independent_of_balance_witness :
  reconciles (str "$1,000.00") (Number_of_Z 50)
    = reconciles (str "$25.10") (Number_of_Z 50) /\
  reconciles (str "$1,000.00") (Number_of_Z 50)
    = (Math_abs (Number_of_Z 50) <? tolerance)%js.
Proof.
  apply (reconciliation_independent_of_balance
           (str "$1,000.00") (str "$25.10") (Number_of_Z 50)
           eq_refl eq_refl eq_refl eq_refl).
  right. reflexivity.
Defined.

(* ================================================================= *)
(** * The payment amount *)



(** ** Multiplication *)

Lemma digits2_pos_mul (a b : positive) :
  Zpos (digits2_pos a) + Zpos (digits2_pos b) - 1 <= Zpos (digits2_pos (a * b))
  <= Zpos (digits2_pos a) + Zpos (digits2_pos b).
Proof.
  pose proof (digits2_pos_bounds a) as [La Ua].
  pose proof (digits2_pos_bounds b) as [Lb Ub].
  pose proof (digits2_pos_bounds (a * b)) as [Lab Uab].
  rewrite Pos2Z.inj_mul in Lab, Uab.
  set (da := Zpos (digits2_pos a)) in *. set (db := Zpos (digits2_pos b)) in *.
  set (dab := Zpos (digits2_pos (a * b))) in *.
  assert (0 < da) by (unfold da; lia). assert (0 < db) by (unfold db; lia).
  assert (0 < dab) by (unfold dab; lia).
  assert (0 < 2 ^ (da - 1)) by (apply Z.pow_pos_nonneg; lia).
  assert (0 < 2 ^ (db - 1)) by (apply Z.pow_pos_nonneg; lia).
  assert (Hlo : 2 ^ (da - 1 + (db - 1)) < 2 ^ dab).
  { rewrite Z.pow_add_r by lia. nia. }
  assert (Hhi : 2 ^ (dab - 1) < 2 ^ (da + db)).
  { rewrite Z.pow_add_r by lia. nia. }
  apply Z.pow_lt_mono_r_iff in Hlo; [|lia|lia].
  apply Z.pow_lt_mono_r_iff in Hhi; lia.
Qed.

(** The product of two finite numbers, when it is in the range of the
    normal numbers: the exact product rounded, at relative distance at
    most 2^-53.  Products of values are in units of 2^-2148. *)
Lemma Number_mul_units (x y : number) :
  is_finite x = true -> is_finite y = true ->
  valid x = true -> valid y = true ->
  2 ^ 1126 <= Z.abs (units x * units y) < 2 ^ 3171 ->
  let r := (x * y)%js in
  is_finite r = true /\ valid r = true /\
  2 ^ 53 * Z.abs (units r * UNIT - units x * units y) <= Z.abs (units x * units y).
Proof.
  intros Fx Fy Vx Vy Hrange r. subst r.
  destruct x as [sx | sx | | sx mx ex], y as [sy | sy | | sy my ey];
    try discriminate;
    try (cbn [units] in Hrange; rewrite ?Z.mul_0_l, ?Z.mul_0_r in Hrange;
         cbn in Hrange; lia).
  unfold Number_mul. cbn [SFmul]. cbn [valid valid_binary] in Vx, Vy.
  pose proof (bounded_exponent _ _ Vx) as Bx.
  pose proof (bounded_exponent _ _ Vy) as By.
  apply bounded_iff in Vx as [Cx _], Vy as [Cy _].
  pose proof (digits2_pos_mul mx my) as Hd.
  pose proof (digits2_pos_bounds (mx * my)) as [Lm Um].
  pose proof (digits2_pos_bounds mx) as [Lx Ux].
  pose proof (digits2_pos_bounds my) as [Ly Uy].
  set (M := (mx * my)%positive) in *.
  set (d := Zpos (digits2_pos M)) in *.
  set (E := ex + ey).
  set (A := 2 ^ (E + 2148)).
  assert (HA : 0 < A) by (apply Z.pow_pos_nonneg; unfold E; lia).
  assert (Hprod : Z.abs (units (S754_finite sx mx ex) * units (S754_finite sy my ey))
                  = Zpos M * A).
  { rewrite !units_finite. unfold A, E, M.
    replace (ex + ey + 2148) with ((ex + 1074) + (ey + 1074)) by lia.
    rewrite (Z.pow_add_r 2 (ex + 1074) (ey + 1074)), Pos2Z.inj_mul by lia.
    assert (0 < 2 ^ (ex + 1074)) by (apply Z.pow_pos_nonneg; lia).
    assert (0 < 2 ^ (ey + 1074)) by (apply Z.pow_pos_nonneg; lia).
    destruct sx, sy; nia. }
  rewrite Hprod in Hrange |- *. clear Hprod.
  assert (Hlo : -1074 <= d + E - 53).
  { assert (2 ^ 1126 < 2 ^ (d + (E + 2148))).
    { rewrite Z.pow_add_r by (unfold d, E; lia). fold A.
      eapply Z.le_lt_trans; [apply Hrange|].
      apply Z.mul_lt_mono_pos_r; [exact HA|exact Um]. }
    apply Z.pow_lt_mono_r_iff in H; unfold d, E in *; lia. }
  assert (Hhi : d + E - 53 < 971).
  { assert (2 ^ (d - 1 + (E + 2148)) < 2 ^ 3171).
    { rewrite Z.pow_add_r by (unfold d, E; lia). fold A.
      eapply Z.le_lt_trans; [|apply Hrange].
      apply Z.mul_le_mono_nonneg_r; [lia|exact Lm]. }
    apply Z.pow_lt_mono_r_iff in H; unfold d, E in *; lia. }
  assert (Hd53 : 53 <= d) by (unfold d, E in *; lia).
  assert (Hsign : forall (m : positive) (e : Z), -1074 <= e ->
            units (S754_finite (xorb sx sy) m e) * UNIT
            - units (S754_finite sx mx ex) * units (S754_finite sy my ey)
            = (if xorb sx sy then -1 else 1) * (Zpos m * 2 ^ (e + 2148) - Zpos M * A)).
  { intros m e He. rewrite !units_finite. unfold A, E, M, UNIT.
    replace (ex + ey + 2148) with ((ex + 1074) + (ey + 1074)) by lia.
    replace (e + 2148) with ((e + 1074) + 1074) by lia.
    rewrite (Z.pow_add_r 2 (ex + 1074) (ey + 1074)),
      (Z.pow_add_r 2 (e + 1074) 1074), Pos2Z.inj_mul by lia.
    destruct sx, sy; cbn [xorb]; lia. }
  assert (Habs : forall z, Z.abs ((if xorb sx sy then -1 else 1) * z) = Z.abs z).
  { intros z. destruct (xorb sx sy); lia. }
  destruct (Z.eq_dec d 53) as [Heq | Hne].
  - (* the product of the mantissas has 53 digits: it is kept *)
    assert (Hb : bounded prec emax M E = true).
    { apply bounded_iff. fold d. lia. }
    rewrite binary_round_aux_bounded by exact Hb.
    cbn [is_finite valid valid_binary]. split; [reflexivity|]. split; [exact Hb|].
    rewrite Hsign by lia. fold A. rewrite Z.sub_diag, Z.mul_0_r.
    change (Z.abs 0) with 0. rewrite Z.mul_0_r. apply Z.mul_nonneg_nonneg; lia.
  - destruct (binary_round_aux_round (xorb sx sy) M E) as (m & e & Hr & Hb & Hge & Herr & _);
      fold d; try lia.
    fold d in Hge, Herr. fold E. rewrite Hr.
    cbn [is_finite valid valid_binary]. split; [reflexivity|]. split; [exact Hb|].
    rewrite Hsign, Habs by lia.
    assert (Hp : 0 < 2 ^ (d - 53)) by (apply Z.pow_pos_nonneg; lia).
    assert (Hd2 : 2 ^ (d - 1) = 2 ^ 52 * 2 ^ (d - 53)).
    { rewrite <- Z.pow_add_r by lia. f_equal. lia. }
    assert (Hm : 2 * (Zpos m * 2 ^ (e + 2148)) = Zpos m * 2 ^ (e - E + 1) * A).
    { unfold A. rewrite <- Z.mul_assoc, <- Z.pow_add_r by (unfold E in *; lia).
      replace (e - E + 1 + (E + 2148)) with (Z.succ (e + 2148)) by lia.
      rewrite Z.pow_succ_r by (unfold E in *; lia). lia. }
    change (2 ^ 53) with (2 * 2 ^ 52).
    clear Hrange Hlo Hhi Hsign Habs Cx Cy Bx By Lx Ux Ly Uy Hd Hr Hb Um.
    set (b := 2 ^ (d - 53)) in *.
    set (xv := Zpos m * 2 ^ (e + 2148)) in *.
    set (yv := Zpos m * 2 ^ (e - E + 1)) in *.
    set (c := 2 ^ 52) in *.
    assert (0 < c) by (unfold c; lia).
    assert (Z.abs (2 * (Zpos M * A) - 2 * xv) <= b * A).
    { rewrite Hm. replace (2 * (Zpos M * A) - yv * A) with ((2 * Zpos M - yv) * A) by lia.
      rewrite Z.abs_mul, (Z.abs_eq A) by lia. nia. }
    nia.
Qed.

(** ** Rounding to an integer *)

(** [Math.round] of a finite number is the integer [k] with
    [k <= x + 1/2 < k + 1]. *)
Lemma Math_round_units (x : number) :
  is_finite x = true -> valid x = true ->
  is_finite (Math_round x) = true /\ valid (Math_round x) = true /\
  exists k, units (Math_round x) = k * UNIT /\
            2 * k * UNIT <= 2 * units x + UNIT < 2 * (k + 1) * UNIT.
Proof.
  intros Fx Vx. assert (HU : 0 < UNIT) by (unfold UNIT; lia).
  destruct x as [s | s | | s m e]; try discriminate.
  - cbn [Math_round units]. repeat split. exists 0. split; lia.
  - cbn [valid valid_binary] in Vx. pose proof (bounded_exponent _ _ Vx) as Be.
    destruct (Z.leb_spec 0 e) as [Hge | Hlt].
    + assert (HR : Math_round (S754_finite s m e) = S754_finite s m e).
      { unfold Math_round. destruct (Z.leb_spec 0 e); [reflexivity|lia]. }
      rewrite HR. split; [reflexivity|]. split; [exact Vx|].
      exists ((if s then -1 else 1) * (Zpos m * 2 ^ e)).
      assert (Hu : units (S754_finite s m e)
                   = (if s then -1 else 1) * (Zpos m * 2 ^ e) * UNIT).
      { rewrite units_finite. unfold UNIT. rewrite Z.pow_add_r by lia. lia. }
      rewrite Hu. split; lia.
    + set (z := if s then Zneg m else Zpos m).
      set (q := 2 ^ (1 - e)). set (h := 2 ^ (- e)). set (B := 2 ^ (e + 1074)).
      assert (Hq : 0 < q) by (apply Z.pow_pos_nonneg; lia).
      assert (Hh : 0 < h) by (apply Z.pow_pos_nonneg; lia).
      assert (HB : 0 < B) by (apply Z.pow_pos_nonneg; lia).
      assert (Hqh : q = 2 * h).
      { unfold q, h. replace (1 - e) with (Z.succ (- e)) by lia.
        now rewrite Z.pow_succ_r by lia. }
      assert (HhB : h * B = UNIT).
      { unfold h, B, UNIT. rewrite <- Z.pow_add_r by lia. f_equal. lia. }
      assert (Hux : units (S754_finite s m e) = z * B).
      { rewrite units_finite. unfold z, B. destruct s; lia. }
      set (k := (2 * z + h) / q).
      pose proof (Z.div_mod (2 * z + h) q ltac:(lia)) as Hdm.
      pose proof (Z.mod_pos_bound (2 * z + h) q Hq) as Hmod.
      fold k in Hdm.
      assert (Hfloor : q * k <= 2 * z + h < q * k + q) by lia.
      assert (Hk : 2 * k * UNIT <= 2 * (z * B) + UNIT < 2 * (k + 1) * UNIT).
      { rewrite <- HhB. rewrite Hqh in Hfloor. split; nia. }
      assert (Hm53 : Zpos m < 2 ^ 53).
      { apply bounded_iff in Vx as [Cx _].
        pose proof (digits2_pos_bounds m) as [_ Um].
        eapply Z.lt_le_trans; [exact Um|]. apply Z.pow_le_mono_r; lia. }
      assert (Hk53 : Z.abs k < 2 ^ 53).
      { assert (2 <= h).
        { unfold h. change 2 with (2 ^ 1) at 1. apply Z.pow_le_mono_r; lia. }
        assert (Z.abs z < 2 ^ 53) by (unfold z; destruct s; lia).
        rewrite Hqh in Hfloor. change (2 ^ 53) with 9007199254740992 in *. nia. }
      assert (HR : Math_round (S754_finite s m e)
                   = match k with 0 => S754_zero s | _ => Number_of_Z k end).
      { unfold Math_round. destruct (Z.leb_spec 0 e); [lia|]. reflexivity. }
      rewrite HR, Hux. clear HR Hdm Hmod Hfloor. clearbody k.
      destruct (Z.eq_dec k 0) as [Hk0 | Hk0].
      * rewrite Hk0. cbn [is_finite valid valid_binary units].
        repeat split. exists 0. rewrite Hk0 in Hk. split; [lia|exact Hk].
      * assert (Hgoal : forall r, r = Number_of_Z k ->
                  is_finite r = true /\ valid r = true /\
                  exists k0, units r = k0 * UNIT /\
                    2 * k0 * UNIT <= 2 * (z * B) + UNIT < 2 * (k0 + 1) * UNIT).
        { intros r ->.
          destruct (binary_normalize_units k 0) as (Fk & Vk & _ & Hex).
          { lia. }
          { change (0 + 1074) with 1074. change (2 ^ 53) with 9007199254740992 in Hk53.
            assert (9007199254740992 * 2 ^ 1074 < 2 ^ 2097) by (vm_compute; reflexivity).
            assert (0 < 2 ^ 1074) by lia. nia. }
          split; [exact Fk|]. split; [exact Vk|].
          exists k. split; [|exact Hk].
          unfold Number_of_Z. rewrite (Hex Hk53). reflexivity. }
        destruct k as [|p|p]; [lia| |]; apply Hgoal; reflexivity.
Qed.


Lemma scaled_error_cancel (a b V : Z) :
  0 < V -> 2 ^ 53 * Z.abs (a * V) <= Z.abs (b * V) ->
  2 ^ 53 * Z.abs a <= Z.abs b.
Proof.
  intros HV H. rewrite !Z.abs_mul, (Z.abs_eq V), Z.mul_assoc in H by lia.
  now apply Z.mul_le_mono_pos_r in H.
Qed.

(** The integer that [Math.round] returns in the payment amount, for a
    rate between 2^-32 and 2^32 in magnitude and a number of hours [h]
    that is [c] half hours. *)
Lemma cents_of_rate (R h : number) (c : Z) :
  is_finite R = true -> valid R = true ->
  2 ^ 1042 <= Z.abs (units R) <= 2 ^ 1106 ->
  is_finite h = true -> valid h = true ->
  units h = c * 2 ^ 1073 -> 1 <= c <= 4 ->
  let n := Math_round (R * h * Number_of_Z 100)%js in
  is_finite n = true /\ valid n = true /\
  exists k, units n = k * UNIT /\
    2 ^ 50 * Z.abs (480 * (k * 2 ^ 1073) - 12000 * c * units R)
      <= 2 ^ 50 * 240 * 2 ^ 1073 + 6000 * c * Z.abs (units R).
Proof.
  intros FR VR BR Fh Vh Uh Hc n. subst n.
  assert (HV : 0 < 2 ^ 1073) by lia.
  assert (HU : UNIT = 2 * 2 ^ 1073) by reflexivity.
  destruct (Number_mul_units R h FR Fh VR Vh) as (F1 & V1 & E1).
  { rewrite Uh, Z.abs_mul.
    assert (2 ^ 1073 <= Z.abs (c * 2 ^ 1073) <= 2 ^ 1075) by lia.
    change (2 ^ 1126) with (2 ^ 53 * 2 ^ 1073).
    change (2 ^ 3171) with (2 ^ 2096 * 2 ^ 1075).
    split; [|apply Z.le_lt_trans with (2 ^ 1106 * 2 ^ 1075)];
      try (apply Z.mul_le_mono_nonneg; lia); lia. }
  set (x1 := (R * h)%js) in *.
  assert (E1' : 2 ^ 53 * Z.abs (2 * units x1 - c * units R) <= Z.abs (c * units R)).
  { apply (scaled_error_cancel _ _ (2 ^ 1073) HV).
    rewrite Uh, HU in E1.
    replace ((2 * units x1 - c * units R) * 2 ^ 1073)
      with (units x1 * (2 * 2 ^ 1073) - units R * (c * 2 ^ 1073)) by ring.
    replace (c * units R * 2 ^ 1073) with (units R * (c * 2 ^ 1073)) by ring.
    exact E1. }
  clear E1.
  assert (B1 : 2 ^ 1040 <= Z.abs (units x1) <= 2 ^ 1108).
  { clear - E1' BR Hc. change (2 ^ 53) with 9007199254740992 in E1'.
    assert (c = 1 \/ c = 2 \/ c = 3 \/ c = 4) as [-> | [-> | [-> | ->]]] by lia; lia. }
  assert (U100 : units (Number_of_Z 100) = 200 * 2 ^ 1073) by (vm_compute; reflexivity).
  destruct (Number_mul_units x1 (Number_of_Z 100) F1 eq_refl V1 eq_refl) as (F2 & V2 & E2).
  { rewrite U100, Z.abs_mul.
    replace (Z.abs (200 * 2 ^ 1073)) with (200 * 2 ^ 1073) by lia.
    change (2 ^ 1126) with (2 ^ 53 * 2 ^ 1073).
    change (2 ^ 3171) with (2 ^ 2063 * 2 ^ 1108).
    split; [apply Z.le_trans with (2 ^ 1040 * (200 * 2 ^ 1073))
           |apply Z.le_lt_trans with (2 ^ 1108 * (200 * 2 ^ 1073))];
      try (apply Z.mul_le_mono_nonneg; lia); lia. }
  set (x2 := (x1 * Number_of_Z 100)%js) in *.
  assert (E2' : 2 ^ 53 * Z.abs (2 * units x2 - 200 * units x1) <= Z.abs (200 * units x1)).
  { apply (scaled_error_cancel _ _ (2 ^ 1073) HV).
    rewrite U100, HU in E2.
    replace ((2 * units x2 - 200 * units x1) * 2 ^ 1073)
      with (units x2 * (2 * 2 ^ 1073) - units x1 * (200 * 2 ^ 1073)) by ring.
    replace (200 * units x1 * 2 ^ 1073) with (units x1 * (200 * 2 ^ 1073)) by ring.
    exact E2. }
  clear E2.
  destruct (Math_round_units x2 F2 V2) as (F3 & V3 & k & Uk & Ek).
  split; [exact F3|]. split; [exact V3|]. exists k. split; [exact Uk|].
  rewrite HU in Ek.
  set (W := k * 2 ^ 1073).
  assert (Ek' : 4 * W <= 2 * units x2 + 2 * 2 ^ 1073 < 4 * W + 4 * 2 ^ 1073)
    by (unfold W; lia).
  clearbody W. clear Ek Uk B1 BR.
  generalize dependent (2 ^ 1073). intros V HV _ _ _ Ek'.
  change (2 ^ 53) with 9007199254740992 in *.
  change (2 ^ 50) with 1125899906842624.
  assert (c = 1 \/ c = 2 \/ c = 3 \/ c = 4) as [-> | [-> | [-> | ->]]] by lia; lia.
Qed.

Lemma round_to_cents_floor (num den : Z) :
  0 < den ->
  2 * den * round_to_cents num den <= 200 * num + den
  < 2 * den * round_to_cents num den + 2 * den.
Proof.
  intros Hden. unfold round_to_cents.
  pose proof (Z.div_mod (200 * num + den) (2 * den) ltac:(lia)).
  pose proof (Z.mod_pos_bound (200 * num + den) (2 * den) ltac:(lia)).
  lia.
Qed.

(** The payment amount for a duration [D] of [c] half hours. *)
Lemma payment_amount_for_half_hours (R D h : number) (c : Z) :
  valid R = true ->
  (Math_abs R <=? magnitude_bound)%js = true ->
  units R = 0 \/ (least_rate <=? Math_abs R)%js = true ->
  (D / Number_of_Z 60)%js = h ->
  is_finite h = true -> valid h = true ->
  units h = c * 2 ^ 1073 -> units D = 60 * c * 2 ^ 1073 -> 1 <= c <= 4 ->
  exists (n : number) (k : Z),
    derivedPaymentAmount R D = (n / Number_of_Z 100)%js /\
    is_finite n = true /\ valid n = true /\ units n = k * UNIT /\
    let num := units R * units D in
    let den := 60 * UNIT * UNIT in
    2 ^ 50 * Z.abs (2 * k * den - 200 * num) <= 2 ^ 50 * den + 100 * Z.abs num /\
    Z.abs (k - round_to_cents num den) <= 1.
Proof.
  intros VR BR Hrate Hh Fh Vh Uh UD Hc.
  destruct (leb_abs_units R magnitude_bound VR eq_refl eq_refl BR) as [FR UR].
  assert (Hb : units magnitude_bound = 2 ^ 1106) by (vm_compute; reflexivity).
  rewrite Hb in UR.
  unfold derivedPaymentAmount. cbv zeta. rewrite Hh.
  exists (Math_round (R * h * Number_of_Z 100)%js).
  assert (HV : 0 < 2 ^ 1073) by lia.
  assert (HU : UNIT = 2 * 2 ^ 1073) by reflexivity.
  destruct Hrate as [Hzero | Hrate].
  - (* a rate of zero *)
    exists 0.
    destruct R as [s | s | | s m e]; try discriminate.
    + destruct h as [sh | sh | | sh mh eh]; try discriminate.
      * exfalso. cbn [units] in Uh. lia.
      * assert (Hn : Math_round (S754_zero s * S754_finite sh mh eh * Number_of_Z 100)%js
                     = S754_zero (xorb (xorb s sh) false)) by reflexivity.
        rewrite Hn. cbn [is_finite valid valid_binary units].
        split; [reflexivity|]. split; [reflexivity|]. split; [reflexivity|].
        split; [reflexivity|]. cbv zeta.
        replace (0 * units D) with 0 by lia.
        assert (Hden : 0 < 60 * UNIT * UNIT) by (rewrite HU; lia).
        assert (Hr0 : round_to_cents 0 (60 * UNIT * UNIT) = 0).
        { unfold round_to_cents. rewrite Z.mul_0_r, Z.add_0_l.
          apply Z.div_small. lia. }
        rewrite Hr0.
        replace (2 * 0 * (60 * UNIT * UNIT) - 200 * 0) with 0 by lia.
        change (0 - 0) with 0. change (Z.abs 0) with 0.
        split; lia.
    + exfalso. cbn [valid valid_binary] in VR.
      pose proof (bounded_exponent _ _ VR). rewrite units_finite in Hzero.
      assert (0 < 2 ^ (e + 1074)) by (apply Z.pow_pos_nonneg; lia).
      destruct s; nia.
  - destruct (abs_units R) as (Fa & Va & Ua).
    rewrite FR in Fa. rewrite VR in Va. fold (Math_abs R) in Fa, Va, Ua.
    unfold Number_leb in Hrate.
    rewrite Number_leb_units in Hrate by (try assumption; reflexivity).
    apply Z.leb_le in Hrate. rewrite Ua in Hrate.
    assert (Hl : units least_rate = 2 ^ 1042) by (vm_compute; reflexivity).
    rewrite Hl in Hrate.
    destruct (cents_of_rate R h c FR VR (conj Hrate UR) Fh Vh Uh Hc)
      as (Fn & Vn & k & Uk & Ek).
    exists k. split; [reflexivity|]. split; [exact Fn|]. split; [exact Vn|].
    split; [exact Uk|]. cbv zeta. rewrite UD, HU.
    clear Uk Fn Vn Uh UD Hl Hb Fa Va Ua FR VR BR Hh Fh Vh.
    change (2 ^ 1106) with (2 ^ 33 * 2 ^ 1073) in UR.
    set (uR := units R) in *. clearbody uR.
    set (q := round_to_cents (uR * (60 * c * 2 ^ 1073))
                 (60 * (2 * 2 ^ 1073) * (2 * 2 ^ 1073))).
    pose proof (round_to_cents_floor (uR * (60 * c * 2 ^ 1073))
                  (60 * (2 * 2 ^ 1073) * (2 * 2 ^ 1073)) ltac:(lia)) as Hq.
    fold q in Hq. clearbody q.
    clear Hrate.
    generalize dependent (2 ^ 1073). intros V UR HV _ Ek Hq.
    change (2 ^ 50) with 1125899906842624 in *.
    change (2 ^ 33) with 8589934592 in *.
    set (W := k * V) in *.
    assert (HL : 2 * k * (60 * (2 * V) * (2 * V)) - 200 * (uR * (60 * c * V))
                 = (480 * W - 12000 * c * uR) * V) by (unfold W; ring).
    assert (HR : 1125899906842624 * (60 * (2 * V) * (2 * V))
                 + 100 * Z.abs (uR * (60 * c * V))
                 = (1125899906842624 * 240 * V + 6000 * c * Z.abs uR) * V).
    { replace (uR * (60 * c * V)) with (60 * c * uR * V) by ring.
      rewrite Z.abs_mul, (Z.abs_eq V), Z.abs_mul, (Z.abs_eq (60 * c)) by lia. ring. }
    split.
    + rewrite HL, HR, Z.abs_mul, (Z.abs_eq V), Z.mul_assoc by lia.
      apply Z.mul_le_mono_nonneg_r; [lia|exact Ek].
    + set (Q := q * V).
      assert (HqV : (480 * Q) * V <= (12000 * c * uR + 240 * V) * V
                    < (480 * Q + 480 * V) * V) by (unfold Q; split; nia).
      assert (HQ : 480 * Q <= 12000 * c * uR + 240 * V < 480 * Q + 480 * V).
      { destruct HqV as [H1 H2].
        apply Z.mul_le_mono_pos_r in H1; [|exact HV].
        apply Z.mul_lt_mono_pos_r in H2; [|exact HV]. lia. }
      assert (HWQ : Z.abs (W - Q) < 2 * V).
      { clear HqV Hq HL HR. 
        assert (c = 1 \/ c = 2 \/ c = 3 \/ c = 4) as [-> | [-> | [-> | ->]]] by lia; lia. }
      unfold W, Q in HWQ.
      replace (k * V - q * V) with ((k - q) * V) in HWQ by ring.
      rewrite Z.abs_mul, (Z.abs_eq V) in HWQ by lia.
      apply Z.mul_lt_mono_pos_r in HWQ; [lia|exact HV].
Qed.

(** X1. The amount the effect computes is the rate times the duration, in
    cents, rounded to an integer and divided by 100.  For a rate that is
    zero or between 2^-32 and 2^32 in magnitude, and a duration of the
    duration control, it is the quotient by 100 of an integer [k] of cents
    within 1/2 + 2^-51 * |X| of the exact value X = 100 * R * D / 60; [k]
    is X rounded to the nearest integer (a tie going up), or next to it. *)
Theorem payment_amount_is_rounded_to_cents (R D : number) :
  valid R = true ->
  (Math_abs R <=? magnitude_bound)%js = true ->
  units R = 0 \/ (least_rate <=? Math_abs R)%js = true ->
  In D supportedDurations ->
  exists (n : number) (k : Z),
    derivedPaymentAmount R D = (n / Number_of_Z 100)%js /\
    is_finite n = true /\ valid n = true /\ units n = k * UNIT /\
    let num := units R * units D in
    let den := 60 * UNIT * UNIT in
    2 ^ 50 * Z.abs (2 * k * den - 200 * num) <= 2 ^ 50 * den + 100 * Z.abs num /\
    Z.abs (k - round_to_cents num den) <= 1.
Proof.
  intros VR BR Hrate HD.
  unfold supportedDurations, durationItems in HD. cbn [map In] in HD.
  destruct HD as [<- | [<- | [<- | [<- | []]]]].
  - apply (payment_amount_for_half_hours R _
             (S754_finite false 4503599627370496 (-53)) 1); try assumption;
      try (vm_compute; reflexivity); lia.
  - apply (payment_amount_for_half_hours R _
             (S754_finite false 4503599627370496 (-52)) 2); try assumption;
      try (vm_compute; reflexivity); lia.
  - apply (payment_amount_for_half_hours R _
             (S754_finite false 6755399441055744 (-52)) 3); try assumption;
      try (vm_compute; reflexivity); lia.
  - apply (payment_amount_for_half_hours R _
             (S754_finite false 4503599627370496 (-51)) 4); try assumption;
      try (vm_compute; reflexivity); lia.
Qed.

Lemma payment_amount_is_rounded_to_cents_witness :
  exists (n : number) (k : Z),
    derivedPaymentAmount (Number_of_Z 75) (parseInt (str "90"))
      = (n / Number_of_Z 100)%js /\
    units n = k * UNIT /\
    Z.abs (k - round_to_cents (units (Number_of_Z 75) * units (parseInt (str "90")))
                              (60 * UNIT * UNIT)) <= 1.
Proof.
  destruct (payment_amount_is_rounded_to_cents (Number_of_Z 75) (parseInt (str "90"))
              eq_refl eq_refl (or_intror eq_refl)
              (or_intror (or_intror (or_introl eq_refl))))
    as (n & k & Hn & _ & _ & Hk & _ & Hc).
  exists n, k. repeat split; assumption.
Defined.


(** ** Division *)

Lemma new_location_zero (nb : Z) : new_location nb 0 = loc_Exact.
Proof.
  unfold new_location, new_location_even, new_location_odd.
  destruct (Z.even nb); reflexivity.
Qed.

Lemma normal_digits (m : positive) (e : Z) :
  bounded prec emax m e = true ->
  2 ^ 52 <= Zpos m * 2 ^ (e + 1074) ->
  Zpos (digits2_pos m) = 53.
Proof.
  intros Hb Hlo. apply bounded_iff in Hb as [Hc _].
  destruct (Z.eq_dec e (-1074)) as [-> | Hne]; [|lia].
  change (-1074 + 1074) with 0 in Hlo. rewrite Z.pow_0_r, Z.mul_1_r in Hlo.
  pose proof (digits2_pos_bounds m) as [_ Hu].
  assert (Hd : Zpos (digits2_pos m) <= 53) by lia.
  assert (2 ^ 52 < 2 ^ Zpos (digits2_pos m)) by lia.
  apply Z.pow_lt_mono_r_iff in H; lia.
Qed.

(** A quotient that is a normal binary64 value is returned exactly. *)
Lemma Number_div_exact (x y z : number) :
  is_finite x = true -> is_finite y = true -> is_finite z = true ->
  valid x = true -> valid y = true -> valid z = true ->
  units y <> 0 ->
  2 ^ 52 <= Z.abs (units z) < 2 ^ 2097 ->
  units x * UNIT = units z * units y ->
  is_finite (x / y)%js = true /\ valid (x / y)%js = true /\
  units (x / y)%js = units z.
Proof.
  intros Fx Fy Fz Vx Vy Vz Hy Hz Heq.
  assert (HUNIT : 0 < UNIT) by (unfold UNIT; lia).
  destruct y as [sy | sy | | sy my ey]; try discriminate; [cbn in Hy; lia|].
  destruct z as [sz | sz | | sz mz ez]; try discriminate; [cbn in Hz; lia|].
  destruct x as [sx | sx | | sx mx ex]; try discriminate.
  { exfalso. cbn [units] in Heq, Hz, Hy. rewrite Z.mul_0_l in Heq. symmetry in Heq.
    apply Z.mul_eq_0 in Heq. destruct Heq as [H | H]; [|contradiction].
    rewrite H in Hz. change (Z.abs 0) with 0 in Hz. lia. }
  cbn [valid valid_binary] in Vx, Vy, Vz.
  pose proof (bounded_exponent _ _ Vx) as Bx.
  pose proof (bounded_exponent _ _ Vy) as By.
  pose proof (bounded_exponent _ _ Vz) as Bz.
  rewrite !units_finite in Heq. rewrite units_finite in Hz.
  assert (Px : 0 < 2 ^ (ex + 1074)) by (apply Z.pow_pos_nonneg; lia).
  assert (Py : 0 < 2 ^ (ey + 1074)) by (apply Z.pow_pos_nonneg; lia).
  assert (Pz : 0 < 2 ^ (ez + 1074)) by (apply Z.pow_pos_nonneg; lia).
  (* signs and magnitudes *)
  assert (Hsign : xorb sx sy = sz).
  { assert (0 < Zpos mx * 2 ^ (ex + 1074) * UNIT)
      by (repeat apply Z.mul_pos_pos; try assumption; apply Pos2Z.is_pos).
    assert (0 < Zpos mz * 2 ^ (ez + 1074) * (Zpos my * 2 ^ (ey + 1074)))
      by (repeat apply Z.mul_pos_pos; try assumption; apply Pos2Z.is_pos).
    clear Hz Hy.
    destruct sx, sy, sz; try reflexivity; exfalso; cbv iota in Heq; lia. }
  assert (Hmag : Zpos mx * 2 ^ (ex + 1074) * UNIT
                 = Zpos mz * 2 ^ (ez + 1074) * (Zpos my * 2 ^ (ey + 1074))).
  { clear Hz Hy. destruct sx, sy, sz; try discriminate; cbv iota in Heq; lia. }
  clear Heq.
  assert (Hzabs : Z.abs ((if sz then -1 else 1) * (Zpos mz * 2 ^ (ez + 1074)))
                  = Zpos mz * 2 ^ (ez + 1074)).
  { assert (0 < Zpos mz * 2 ^ (ez + 1074))
      by (apply Z.mul_pos_pos; try assumption; apply Pos2Z.is_pos).
    clear Hz. destruct sz; lia. }
  rewrite Hzabs in Hz. clear Hzabs.
  assert (Hdz : Zpos (digits2_pos mz) = 53) by (apply (normal_digits mz ez); [assumption|lia]).
  pose proof (digits2_pos_bounds mx) as [Lx Ux].
  pose proof (digits2_pos_bounds my) as [Ly Uy].
  pose proof (digits2_pos_bounds mz) as [Lz Uz].
  rewrite Hdz in Lz, Uz. change (53 - 1) with 52 in Lz.
  set (d1 := Zpos (digits2_pos mx)) in *. set (d2 := Zpos (digits2_pos my)) in *.
  assert (Hez971 : ez < 971).
  { assert (2 ^ (52 + (ez + 1074)) < 2 ^ 2097).
    { rewrite Z.pow_add_r by lia.
      eapply Z.le_lt_trans; [|apply Hz].
      apply Z.mul_le_mono_nonneg_r; lia. }
    apply Z.pow_lt_mono_r_iff in H; lia. }
  clear Hz.
  (* the exact quotient in powers of two *)
  assert (Hpow : Zpos mx * 2 ^ (ex + 4000) = Zpos mz * Zpos my * 2 ^ (ez + ey + 4000)).
  { replace (ex + 4000) with ((ex + 1074) + 2926) by lia.
    replace (ez + ey + 4000) with ((ez + 1074) + ((ey + 1074) + 1852)) by lia.
    rewrite (Z.pow_add_r 2 (ex + 1074) 2926), (Z.pow_add_r 2 (ez + 1074)),
      (Z.pow_add_r 2 (ey + 1074) 1852) by lia.
    change (2 ^ 2926) with (UNIT * 2 ^ 1852).
    clear - Hmag.
    set (A := 2 ^ (ex + 1074)) in *. set (B := 2 ^ (ey + 1074)) in *.
    set (C := 2 ^ (ez + 1074)) in *. set (T := 2 ^ 1852).
    set (U := UNIT) in *. clearbody A B C T U.
    transitivity (Zpos mx * A * U * T); [ring|]. rewrite Hmag. ring. }
  assert (Hexp : d1 + ex - (d2 + ey) - 53 <= ez).
  { assert (2 ^ (d1 - 1 + (ex + 4000)) < 2 ^ (53 + d2 + (ez + ey + 4000))).
    { rewrite (Z.pow_add_r 2 (d1 - 1)), (Z.pow_add_r 2 (53 + d2)),
        (Z.pow_add_r 2 53 d2) by (unfold d1, d2; lia).
      assert (0 < 2 ^ (ex + 4000)) by (apply Z.pow_pos_nonneg; lia).
      assert (0 < 2 ^ (ez + ey + 4000)) by (apply Z.pow_pos_nonneg; lia).
      assert (0 < 2 ^ (d1 - 1)) by (apply Z.pow_pos_nonneg; unfold d1; lia).
      apply Z.le_lt_trans with (Zpos mx * 2 ^ (ex + 4000));
        [apply Z.mul_le_mono_nonneg_r; lia|].
      rewrite Hpow.
      apply Z.mul_lt_mono_pos_r; [assumption|].
      apply Z.lt_le_trans with (2 ^ 53 * Zpos my);
        [apply Z.mul_lt_mono_pos_r; lia | apply Z.mul_le_mono_nonneg_l; lia]. }
    apply Z.pow_lt_mono_r_iff in H; unfold d1, d2 in *; lia. }
  unfold Number_div. cbn [SFdiv]. unfold SFdiv_core_binary.
  cbn [Zdigits2]. fold d1 d2. rewrite fexp_eq.
  set (e' := Z.min (Z.max (d1 + ex - (d2 + ey) - 53) (-1074)) (ex - ey)).
  assert (He' : e' <= ez) by (unfold e'; lia).
  assert (He'x : e' <= ex - ey) by (unfold e'; lia).
  assert (He'lo : -2045 <= e') by (unfold e'; lia).
  set (s := ex - ey - e'). set (k := ez - e').
  assert (Hs : 0 <= s) by (unfold s; lia).
  assert (Hk : 0 <= k) by (unfold k; lia).
  set (m' := match s with Zpos _ => Z.shiftl (Zpos mx) s | 0 => Zpos mx | Zneg _ => 0 end).
  assert (Hm' : m' = Zpos my * (Zpos mz * 2 ^ k)).
  { assert (Hm1 : m' = Zpos mx * 2 ^ s).
    { unfold m'. clearbody s. destruct s as [|p|p].
      - rewrite Z.pow_0_r. lia.
      - apply Z.shiftl_mul_pow2. lia.
      - lia. }
    rewrite Hm1.
    assert (HP : 0 < 2 ^ (ey + e' + 4000)) by (apply Z.pow_pos_nonneg; lia).
    apply (Z.mul_reg_r _ _ (2 ^ (ey + e' + 4000))); [lia|].
    rewrite <- !Z.mul_assoc, <- !Z.pow_add_r by lia.
    replace (s + (ey + e' + 4000)) with (ex + 4000) by (unfold s; lia).
    replace (k + (ey + e' + 4000)) with (ez + ey + 4000) by (unfold k; lia).
    rewrite Hpow. ring. }
  clearbody m'.
  assert (HQpos : 0 < Zpos mz * 2 ^ k).
  { apply Z.mul_pos_pos; [lia|apply Z.pow_pos_nonneg; lia]. }
  destruct (Z.div_eucl m' (Zpos my)) as [q r] eqn:Ediv.
  assert (Hq : q = Zpos mz * 2 ^ k).
  { replace q with (m' / Zpos my) by (unfold Z.div; now rewrite Ediv).
    rewrite Hm', Z.mul_comm. apply Z.div_mul. lia. }
  assert (Hr : r = 0).
  { replace r with (m' mod Zpos my) by (unfold Z.modulo; now rewrite Ediv).
    rewrite Hm', Z.mul_comm. apply Z.mod_mul. lia. }
  subst r. rewrite new_location_zero. rewrite Hsign.
  destruct q as [|qp|qp]; try lia.
  assert (Hdq : Zpos (digits2_pos qp) = 53 + k).
  { rewrite <- Hdz. apply digits2_pos_mul_pow2; assumption. }
  destruct (Z.eq_dec k 0) as [Hk0 | Hk0].
  - (* the quotient is in canonical position *)
    assert (qp = mz).
    { rewrite Hk0, Z.pow_0_r, Z.mul_1_r in Hq. now injection Hq. }
    subst qp. replace e' with ez by (unfold k in Hk0; lia).
    rewrite binary_round_aux_bounded by exact Vz.
    repeat split. exact Vz.
  - destruct (binary_round_aux_round sz qp e') as (m & e & Hr & Hb & Hge & _ & Hex);
      rewrite ?Hdq; try (unfold k in *; lia).
    rewrite Hdq in Hge, Hex. rewrite Hr.
    cbn [is_finite valid valid_binary]. split; [reflexivity|]. split; [exact Hb|].
    rewrite !units_finite. f_equal.
    replace (53 + k - 53) with k in Hex by lia.
    assert (Hmod : Zpos qp mod 2 ^ k = 0) by (rewrite Hq; apply Z.mod_mul; lia).
    apply Hex in Hmod. rewrite Hq in Hmod.
    assert (Hee : ez <= e) by (unfold k in *; lia).
    assert (Hm : Zpos m * 2 ^ (e - ez) = Zpos mz).
    { apply (Z.mul_reg_r _ _ (2 ^ k)); [lia|].
      rewrite <- Z.mul_assoc, <- Z.pow_add_r by lia.
      replace (e - ez + k) with (e - e') by (unfold k; lia). exact Hmod. }
    rewrite <- Hm, <- Z.mul_assoc, <- Z.pow_add_r by lia.
    do 2 f_equal. lia.
Qed.

(** ** Whole-number rates *)

Lemma whole_rate_for_half_hours (r : Z) (D h : number) (c : Z) :
  Z.abs r <= 2 ^ 32 ->
  (D / Number_of_Z 60)%js = h ->
  is_finite h = true -> valid h = true ->
  units h = c * 2 ^ 1073 -> units D = 60 * c * 2 ^ 1073 -> 1 <= c <= 4 ->
  let a := derivedPaymentAmount (Number_of_Z r) D in
  is_finite a = true /\ valid a = true /\ 60 * units a = r * units D.
Proof.
  intros Hr Hh Fh Vh Uh UD Hc a. subst a.
  unfold derivedPaymentAmount. cbv zeta. rewrite Hh.
  destruct (Z.eq_dec r 0) as [-> | Hr0].
  { destruct h as [sh | sh | | sh mh eh]; try discriminate.
    - exfalso. cbn [units] in Uh. lia.
    - assert (Hn : (Math_round (Number_of_Z 0 * S754_finite sh mh eh * Number_of_Z 100)
                    / Number_of_Z 100)%js = S754_zero (xorb (xorb (xorb false sh) false) false))
        by reflexivity.
      rewrite Hn. cbn [is_finite valid valid_binary units]. repeat split. }
  assert (HV : 0 < 2 ^ 1073) by lia.
  assert (HU : UNIT = 2 * 2 ^ 1073) by reflexivity.
  destruct (binary_normalize_units r 0) as (FR & VR & _ & UR).
  { lia. }
  { change (0 + 1074) with 1074. change (2 ^ 2097) with (2 ^ 1023 * 2 ^ 1074).
    apply Z.mul_lt_mono_pos_r; lia. }
  fold (Number_of_Z r) in FR, VR, UR.
  assert (UR' : units (Number_of_Z r) = 2 * r * 2 ^ 1073).
  { rewrite UR by lia. change (0 + 1074) with 1074.
    change (2 ^ 1074) with (2 * 2 ^ 1073). ring. }
  clear UR.
  destruct (cents_of_rate (Number_of_Z r) h c FR VR) as (Fn & Vn & k & Uk & Ek);
    try assumption.
  { rewrite UR'. change (2 ^ 1042) with (1 * 2 ^ 1042).
    change (2 ^ 1106) with (2 ^ 33 * 2 ^ 1073).
    replace (Z.abs (2 * r * 2 ^ 1073)) with (2 * Z.abs r * 2 ^ 1073)
      by (rewrite !Z.abs_mul; reflexivity).
    split.
    - apply Z.le_trans with (1 * 2 ^ 1073); [lia|].
      apply Z.mul_le_mono_nonneg_r; lia.
    - apply Z.mul_le_mono_nonneg_r; lia. }
  set (n := Math_round (Number_of_Z r * h * Number_of_Z 100)%js) in *.
  (* the number of cents is 50 * c * r *)
  assert (Hk : k = 50 * c * r).
  { rewrite UR' in Ek.
    assert (E1 : 480 * (k * 2 ^ 1073) - 12000 * c * (2 * r * 2 ^ 1073)
                 = (480 * (k - 50 * c * r)) * 2 ^ 1073) by ring.
    assert (E2 : 2 ^ 50 * 240 * 2 ^ 1073 + 6000 * c * Z.abs (2 * r * 2 ^ 1073)
                 = (2 ^ 50 * 240 + 12000 * c * Z.abs r) * 2 ^ 1073).
    { rewrite !Z.abs_mul. change (Z.abs 2) with 2.
      change (Z.abs (2 ^ 1073)) with (2 ^ 1073). ring. }
    rewrite E1, E2, Z.abs_mul in Ek. change (Z.abs (2 ^ 1073)) with (2 ^ 1073) in Ek.
    rewrite Z.mul_assoc in Ek.
    apply Z.mul_le_mono_pos_r in Ek; [|exact HV].
    clear - Ek Hr Hc.
    change (2 ^ 50) with 1125899906842624 in Ek. change (2 ^ 32) with 4294967296 in Hr.
    assert (c = 1 \/ c = 2 \/ c = 3 \/ c = 4) as [-> | [-> | [-> | ->]]] by lia; lia. }
  subst k.
  (* the amount as a number: c * r / 2 *)
  destruct (binary_normalize_units (r * c) (-1)) as (Fz & Vz & _ & Uz).
  { lia. }
  { change (-1 + 1074) with 1073. change (2 ^ 2097) with (2 ^ 1024 * 2 ^ 1073).
    apply Z.mul_lt_mono_pos_r; [lia|].
    change (2 ^ 32) with 4294967296 in Hr. clear - Hr Hc.
    assert (c = 1 \/ c = 2 \/ c = 3 \/ c = 4) as [-> | [-> | [-> | ->]]] by lia; lia. }
  assert (Hrc : Z.abs (r * c) < 2 ^ 53).
  { change (2 ^ 32) with 4294967296 in Hr. clear - Hr Hc.
    assert (c = 1 \/ c = 2 \/ c = 3 \/ c = 4) as [-> | [-> | [-> | ->]]] by lia; lia. }
  specialize (Uz Hrc). change (-1 + 1074) with 1073 in Uz.
  set (z := binary_normalize prec emax (r * c) (-1) false) in *.
  assert (U100 : units (Number_of_Z 100) = 200 * 2 ^ 1073) by (vm_compute; reflexivity).
  destruct (Number_div_exact n (Number_of_Z 100) z) as (Fa & Va & Ua);
    try assumption; try reflexivity.
  { rewrite U100. lia. }
  { rewrite Uz, Z.abs_mul. change (Z.abs (2 ^ 1073)) with (2 ^ 1073).
    assert (1 <= Z.abs (r * c)).
    { clear - Hr0 Hc.
      assert (c = 1 \/ c = 2 \/ c = 3 \/ c = 4) as [-> | [-> | [-> | ->]]] by lia; lia. }
    split.
    - apply Z.le_trans with (1 * 2 ^ 1073); [lia|].
      apply Z.mul_le_mono_nonneg_r; lia.
    - change (2 ^ 2097) with (2 ^ 1024 * 2 ^ 1073).
      apply Z.mul_lt_mono_pos_r; lia. }
  { rewrite Uk, Uz, U100, HU. ring. }
  split; [exact Fa|]. split; [exact Va|]. rewrite Ua, Uz, UD. ring.
Qed.

Lemma whole_rate_amount (r : Z) (D : number) :
  Z.abs r <= 2 ^ 32 ->
  In D supportedDurations ->
  let a := derivedPaymentAmount (Number_of_Z r) D in
  is_finite a = true /\ valid a = true /\ 60 * units a = r * units D.
Proof.
  intros Hr HD.
  unfold supportedDurations, durationItems in HD. cbn [map In] in HD.
  destruct HD as [<- | [<- | [<- | [<- | []]]]].
  - apply (whole_rate_for_half_hours r _
             (S754_finite false 4503599627370496 (-53)) 1); try assumption;
      try (vm_compute; reflexivity); lia.
  - apply (whole_rate_for_half_hours r _
             (S754_finite false 4503599627370496 (-52)) 2); try assumption;
      try (vm_compute; reflexivity); lia.
  - apply (whole_rate_for_half_hours r _
             (S754_finite false 6755399441055744 (-52)) 3); try assumption;
      try (vm_compute; reflexivity); lia.
  - apply (whole_rate_for_half_hours r _
             (S754_finite false 4503599627370496 (-51)) 4); try assumption;
      try (vm_compute; reflexivity); lia.
Qed.

(** X2. For a whole-number hourly rate of magnitude up to 2^32 and a
    duration of the duration control, the amount the effect computes is
    exactly the rate times the duration over 60: no rounding takes part. *)
Theorem whole_rate_amount_is_exact (r : Z) (D : number) :
  Z.abs r <= 2 ^ 32 ->
  In D supportedDurations ->
  let a := derivedPaymentAmount (Number_of_Z r) D in
  is_finite a = true /\ valid a = true /\ 60 * units a = r * units D.
Proof. exact (whole_rate_amount r D). Qed.

Lemma whole_rate_amount_is_exact_witness :
  60 * units (derivedPaymentAmount (Number_of_Z 75) (parseInt (str "90")))
  = 75 * units (parseInt (str "90")).
Proof.
  apply (whole_rate_amount_is_exact 75 (parseInt (str "90"))).
  - vm_compute. discriminate.
  - right. right. left. reflexivity.
Defined.

(* ================================================================= *)
(** * The form and its handler *)


(** ** White space and the validation check *)

Lemma trimStart_nil_iff (s : jsstring) :
  trimStart s = [] <-> forallb isWhiteSpace s = true.
Proof.
  induction s as [|c s IH]; cbn [trimStart forallb].
  - split; reflexivity.
  - destruct (isWhiteSpace c); cbn [andb]; [exact IH|].
    split; discriminate.
Qed.

Lemma trimStart_head (s : jsstring) :
  match trimStart s with
  | [] => True
  | c :: _ => isWhiteSpace c = false
  end.
Proof.
  induction s as [|c s IH]; cbn [trimStart]; [exact I|].
  destruct (isWhiteSpace c) eqn:Hc; [exact IH|exact Hc].
Qed.

Lemma forallb_rev {A : Type} (f : A -> bool) (l : list A) :
  forallb f (rev l) = forallb f l.
Proof.
  induction l as [|a l IH]; [reflexivity|].
  cbn [rev forallb]. rewrite forallb_app, IH. cbn. destruct (f a), (forallb f l); reflexivity.
Qed.

Lemma trim_nil_iff (s : jsstring) :
  trim s = [] <-> forallb isWhiteSpace s = true.
Proof.
  unfold trim, trimEnd. rewrite <- trimStart_nil_iff.
  split.
  - intros H. apply (f_equal (@rev codeunit)) in H. rewrite rev_involutive in H.
    cbn in H. apply trimStart_nil_iff in H. rewrite forallb_rev in H.
    pose proof (trimStart_head s) as Hh.
    destruct (trimStart s) as [|c t]; [reflexivity|].
    cbn in H. rewrite Hh in H. discriminate.
  - intros ->. reflexivity.
Qed.

Lemma truthy_trim (s : jsstring) :
  negb (truthy (trim s)) = forallb isWhiteSpace s.
Proof.
  destruct (forallb isWhiteSpace s) eqn:H.
  - apply trim_nil_iff in H. now rewrite H.
  - destruct (trim s) eqn:Ht; [|reflexivity].
    apply trim_nil_iff in Ht. congruence.
Qed.

Lemma missing_required_blank (fd : BookingFormData) :
  missing_required fd
  = (forallb isWhiteSpace (topic fd)
     || forallb isWhiteSpace (goals fd)
     || negb (truthy (sessionTime fd)))%bool.
Proof. unfold missing_required. now rewrite !truthy_trim. Qed.

(** X4. The validation check rejects exactly the drafts whose topic or
    goals are made of white space only (the empty string included) or
    whose time slot is the empty string. *)
Theorem validation_rejects_blank (fd : BookingFormData) :
  missing_required fd
  = (forallb isWhiteSpace (topic fd)
     || forallb isWhiteSpace (goals fd)
     || negb (truthy (sessionTime fd)))%bool.
Proof. exact (missing_required_blank fd). Qed.

(** X5. A draft that the handler accepts is one for which the submit button
    is enabled, unless a submission is under way; the converse fails,
    the button looking at empty strings only: a topic of white space
    leaves the button enabled and is rejected by the handler. *)
Theorem accepted_draft_has_enabled_button (s : State) :
  (missing_required (formData s) = false -> isSubmitting s = false ->
   submitDisabled s = false) /\
  (isSubmitting s = false ->
   truthy (sessionTime (formData s)) = true ->
   truthy (goals (formData s)) = true ->
   truthy (topic (formData s)) = true ->
   forallb isWhiteSpace (topic (formData s)) = true ->
   submitDisabled s = false /\ missing_required (formData s) = true).
Proof.
  split.
  - rewrite missing_required_blank. unfold submitDisabled. intros H ->.
    apply orb_false_elim in H as [H Ht]. apply orb_false_elim in H as [Hto Hg].
    rewrite Ht. cbn [orb].
    destruct (topic (formData s)); [discriminate|].
    destruct (goals (formData s)); [discriminate|]. reflexivity.
  - intros Hs Ht Hg Hto Hws. rewrite missing_required_blank.
    unfold submitDisabled. rewrite Hs, Ht, Hg, Hto, Hws. split; reflexivity.
Qed.

Lemma accepted_draft_has_enabled_button_witness :
  submitDisabled (ui (mounted blank_draft Absent)) = false /\
  missing_required (formData (ui (mounted blank_draft Absent))) = true.
Proof.
  apply (accepted_draft_has_enabled_button (ui (mounted blank_draft Absent)));
    reflexivity.
Defined.

(** ** What one submission does *)

(** X6. Every submission ends with the submitting flag down and leaves
    the draft and the date picker as they were.  It notifies the user
    once, except when storing the record throws: the success notification
    is then followed by the error notification of the [catch] clause. *)
Theorem submission_always_settles (w : World) (mentor : Mentor.t) (c : Config) :
  let c' := handleSubmit w mentor c in
  isSubmitting (ui c') = false /\
  formData (ui c') = formData (ui c) /\
  isDatePickerOpen (ui c') = isDatePickerOpen (ui c) /\
  exists calls,
    events c' = events c ++ calls /\
    (List.length (filter is_toast calls) = 1%nat \/
     exists err,
       appendSession w c (sessionDetails w mentor (formData (ui c))) = Throws err /\
       filter is_toast calls
       = [payment_successful; Toast (str "Error") (thrown_message err) true]).
Proof.
  cbv zeta. unfold handleSubmit.
  destruct (missing_required _).
  { repeat split. eexists. split; [reflexivity | now left]. }
  destruct (makePaymentFromCart _ _ _) as [res | err].
  2:{ repeat split. eexists. split; [reflexivity | now left]. }
  destruct (success res); cbn [negb].
  { destruct (storeSession_cases w mentor c
                [PaymentCall (formData (ui c)) (Mentor.name mentor); payment_successful])
      as [[_ ->] | [_ (err & He & ->)]]; repeat split; eexists;
      (split; [reflexivity|]); [now left | right].
    exists err. split; [exact He | reflexivity]. }
  destruct (getWalletBalance w) as [bal | err].
  2:{ repeat split. eexists. split; [reflexivity | now left]. }
  destruct (reconciles _ _).
  - destruct (storeSession_cases w mentor c
                [PaymentCall (formData (ui c)) (Mentor.name mentor); BalanceCall;
                 payment_successful])
      as [[_ ->] | [_ (err & He & ->)]]; repeat split; eexists;
      (split; [reflexivity|]); [now left | right].
    exists err. split; [exact He | reflexivity].
  - repeat split. eexists. split; [reflexivity | now left].
Qed.

(** X7. A submission has one of three outcomes.  Either one record is
    appended to the stored list, the error is cleared, success is notified
    and the two callbacks are called, [onClose] then [onSuccess], once
    each.  Or the stored item is left as it was, an error message is set,
    the same message is notified as destructive and is the one
    notification, and no callback is called.  Or storing the record
    throws: the stored item is left as it was, success has been notified,
    the message of what was thrown is set and notified as destructive
    after it, and no callback is called. *)
Theorem submission_outcome (w : World) (mentor : Mentor.t) (c : Config) :
  let c' := handleSubmit w mentor c in
  let details := sessionDetails w mentor (formData (ui c)) in
  exists calls,
    events c' = events c ++ calls /\
    ((bookedSessions c'
      = Holds (JArray (storedRecords c ++ [JSON_of_session details])) /\
      error (ui c') = None /\
      filter is_toast calls = [payment_successful] /\
      filter is_callback calls = [OnClose; OnSuccess])
     \/
     (bookedSessions c' = bookedSessions c /\
      exists title msg,
        error (ui c') = Some msg /\
        filter is_toast calls = [Toast title msg true] /\
        filter is_callback calls = [])
     \/
     (bookedSessions c' = bookedSessions c /\
      exists err,
        appendSession w c details = Throws err /\
        error (ui c') = Some (thrown_message err) /\
        filter is_toast calls
        = [payment_successful; Toast (str "Error") (thrown_message err) true] /\
        filter is_callback calls = [])).
Proof.
  cbv zeta. unfold handleSubmit.
  destruct (missing_required _).
  { eexists. split; [reflexivity|]. right. left. split; [reflexivity|].
    do 2 eexists. repeat split. }
  destruct (makePaymentFromCart _ _ _) as [res | err].
  2:{ eexists. split; [reflexivity|]. right. left. split; [reflexivity|].
      do 2 eexists. repeat split. }
  destruct (success res); cbn [negb].
  { destruct (storeSession_cases w mentor c
                [PaymentCall (formData (ui c)) (Mentor.name mentor); payment_successful])
      as [[_ ->] | [_ (err & He & ->)]]; eexists; (split; [reflexivity|]).
    - left. repeat split.
    - right. right. split; [reflexivity|]. exists err. repeat split. exact He. }
  destruct (getWalletBalance w) as [bal | err].
  2:{ eexists. split; [reflexivity|]. right. left. split; [reflexivity|].
      do 2 eexists. repeat split. }
  destruct (reconciles _ _).
  - destruct (storeSession_cases w mentor c
                [PaymentCall (formData (ui c)) (Mentor.name mentor); BalanceCall;
                 payment_successful])
      as [[_ ->] | [_ (err & He & ->)]]; eexists; (split; [reflexivity|]).
    + left. repeat split.
    + right. right. split; [reflexivity|]. exists err. repeat split. exact He.
  - eexists. split; [reflexivity|]. right. left. split; [reflexivity|].
    do 2 eexists. repeat split.
Qed.

Lemma balance_calls_app (a b : list Event) :
  balance_calls (a ++ b) = (balance_calls a + balance_calls b)%nat.
Proof. unfold balance_calls. now rewrite filter_app, length_app. Qed.

(** X8. The wallet balance is fetched only after the payment call has
    returned a report of failure, and then once; a blocked submission, a
    reported success and a payment call that throws fetch nothing.  The
    payment service itself is called once by every submission that
    passes validation and by no other. *)
Theorem balance_fetched_on_reported_failure_only
  (w : World) (mentor : Mentor.t) (c : Config) :
  let c' := handleSubmit w mentor c in
  let fd := formData (ui c) in
  balance_calls (events c')
    = (balance_calls (events c)
       + if missing_required fd then 0
         else match makePaymentFromCart w fd (Mentor.name mentor) with
              | Returns res => if success res then 0 else 1
              | Throws _ => 0
              end)%nat /\
  payment_calls (events c')
    = (payment_calls (events c) + if missing_required fd then 0 else 1)%nat.
Proof.
  cbv zeta. unfold handleSubmit.
  destruct (missing_required _).
  { cbn [events settle]. now rewrite balance_calls_app, payment_calls_app. }
  destruct (makePaymentFromCart _ _ _) as [res | err].
  2:{ cbn [events settle caught]. now rewrite balance_calls_app, payment_calls_app. }
  destruct (success res); cbn [negb].
  { destruct (storeSession_cases w mentor c
                [PaymentCall (formData (ui c)) (Mentor.name mentor); payment_successful])
      as [[_ ->] | [_ (err & _ & ->)]]; cbn [events settle caught];
      now rewrite balance_calls_app, payment_calls_app. }
  destruct (getWalletBalance w) as [bal | err].
  2:{ cbn [events settle caught]. now rewrite balance_calls_app, payment_calls_app. }
  destruct (reconciles _ _).
  - destruct (storeSession_cases w mentor c
                [PaymentCall (formData (ui c)) (Mentor.name mentor); BalanceCall;
                 payment_successful])
      as [[_ ->] | [_ (err & _ & ->)]]; cbn [events settle caught];
      now rewrite balance_calls_app, payment_calls_app.
  - cbn [events settle]. now rewrite balance_calls_app, payment_calls_app.
Qed.

(** ** Sequences of actions *)

Lemma successes_app (a b : list Event) :
  successes (a ++ b) = (successes a + successes b)%nat.
Proof. unfold successes. now rewrite filter_app, length_app. Qed.

Lemma storedRecords_same (c c' : Config) :
  bookedSessions c' = bookedSessions c -> storedRecords c' = storedRecords c.
Proof. unfold storedRecords. now intros ->. Qed.

Lemma storeSession_records_and_successes
  (w : World) (mentor : Mentor.t) (c : Config) (calls : list Event) :
  successes calls = 0%nat ->
  (List.length (storedRecords (storeSession w mentor c calls)) + successes (events c)
   = List.length (storedRecords c)
     + successes (events (storeSession w mentor c calls)))%nat.
Proof.
  intros Hcalls.
  destruct (storeSession_cases w mentor c calls) as [[_ ->] | [_ (err & _ & ->)]].
  - unfold storedRecords at 1. cbn [settle bookedSessions events].
    rewrite !successes_app, length_app, Hcalls. cbn. lia.
  - rewrite (storedRecords_same c) by reflexivity.
    cbn [caught settle events]. rewrite !successes_app, Hcalls. cbn. lia.
Qed.

Lemma step_records_and_successes (mentor : Mentor.t) (a : Action) (c : Config) :
  (List.length (storedRecords (step mentor a c)) + successes (events c)
   = List.length (storedRecords c) + successes (events (step mentor a c)))%nat.
Proof.
  destruct a as [v f | v f | [d|] | | w]; cbn [step]; try reflexivity.
  unfold handleSubmit.
  destruct (missing_required _).
  { rewrite (storedRecords_same c) by reflexivity.
    cbn [settle events]. rewrite successes_app. cbn. lia. }
  destruct (makePaymentFromCart _ _ _) as [res | err].
  2:{ rewrite (storedRecords_same c) by reflexivity.
      cbn [caught settle events]. rewrite successes_app. cbn. lia. }
  destruct (success res); cbn [negb].
  { now apply storeSession_records_and_successes. }
  destruct (getWalletBalance w) as [bal | err].
  2:{ rewrite (storedRecords_same c) by reflexivity.
      cbn [caught settle events]. rewrite successes_app. cbn. lia. }
  destruct (reconciles _ _).
  - now apply storeSession_records_and_successes.
  - rewrite (storedRecords_same c) by reflexivity.
    cbn [settle events]. rewrite successes_app. cbn. lia.
Qed.

(** X9. Over any sequence of actions, the number of records added to the
    stored list is the number of calls of [onSuccess] made: no record is
    stored without the success callback, and no callback without a
    record. *)
Theorem records_match_success_callbacks
  (mentor : Mentor.t) (actions : list Action) (c : Config) :
  (List.length (storedRecords (run mentor actions c)) + successes (events c)
   = List.length (storedRecords c) + successes (events (run mentor actions c)))%nat.
Proof.
  revert c. induction actions as [|a actions IH]; intros c; [reflexivity|].
  cbn [run fold_left]. fold (run mentor actions (step mentor a c)).
  pose proof (IH (step mentor a c)) as H1.
  pose proof (step_records_and_successes mentor a c) as H2. lia.
Qed.

(** ** The balance string *)






(** ** Amounts and balances at the edges *)

(** X11. The reconciliation test can hold only when both the number read from
    the balance and the payment amount are finite: with a balance that
    reads as [NaN] or [Infinity], or an amount that is [NaN] or infinite,
    a reported failure is always given as a failure. *)
Theorem reconciled_values_are_finite (balance : jsstring) (amount : number) :
  reconciles balance amount = true ->
  is_finite (parseFloat (replace_non_numeric balance)) = true /\
  is_finite amount = true.
Proof.
  unfold reconciles. cbv zeta.
  destruct (parseFloat (replace_non_numeric balance)) as [sp | sp | | sp mp ep],
           amount as [sa | sa | | sa ma ea];
    try (intros _; split; reflexivity);
    try (destruct sp; discriminate);
    try (destruct sa; discriminate);
    try (destruct sp, sa; discriminate);
    try discriminate.
Qed.

Lemma reconciled_values_are_finite_witness :
  is_finite (parseFloat (replace_non_numeric (str "$10.00"))) = true /\
  is_finite (S754_zero false) = true.
Proof.
  apply (reconciled_values_are_finite (str "$10.00") (S754_zero false)).
  reflexivity.
Defined.

(** X12. With an amount of zero (a free session) the test holds at every
    finite balance, however large: every reported failure is then taken
    as a success. *)
Theorem zero_amount_always_reconciles (balance : jsstring) (s : bool) :
  is_finite (parseFloat (replace_non_numeric balance)) = true ->
  reconciles balance (S754_zero s) = true.
Proof.
  unfold reconciles. cbv zeta.
  destruct (parseFloat (replace_non_numeric balance)) as [sp | sp | | sp mp ep];
    try discriminate; intros _.
  - destruct sp, s; reflexivity.
  - unfold Number_sub. cbn [SFsub].
    rewrite Z.min_id. unfold shl_align. rewrite !Z.sub_diag. cbn [fst].
    rewrite ?Z.sub_diag. reflexivity.
Qed.

Lemma zero_amount_always_reconciles_witness :
  reconciles (str "$10.00") (S754_zero false) = true.
Proof.
  apply (zero_amount_always_reconciles (str "$10.00") false). reflexivity.
Defined.

(** ** Session identifiers *)

Lemma str_inj (a b : string) : str a = str b -> a = b.
Proof.
  unfold str. intros H.
  apply (f_equal (map ascii_of_N)) in H. rewrite !map_map in H.
  rewrite (map_ext _ (fun x => x)) in H by (intros x; apply ascii_N_embedding).
  rewrite (map_ext (fun x => ascii_of_N (N_of_ascii x)) (fun x => x)) in H
    by (intros x; apply ascii_N_embedding).
  rewrite !map_id in H.
  apply (f_equal string_of_list_ascii) in H.
  now rewrite !string_of_list_ascii_of_string in H.
Qed.

Lemma Z_to_int_proper (z : Z) :
  Z.to_int z <> Decimal.Pos Decimal.Nil /\ Z.to_int z <> Decimal.Neg Decimal.Nil.
Proof.
  destruct z as [|p|p]; cbn [Z.to_int]; split; try discriminate;
    intros [= H]; now apply Unsigned.to_uint_nonnil in H.
Qed.

Lemma Z_to_jsstring_inj (a b : Z) : Z_to_jsstring a = Z_to_jsstring b -> a = b.
Proof.
  unfold Z_to_jsstring. intros H. apply str_inj in H.
  apply (f_equal NilZero.int_of_string) in H.
  destruct (Z_to_int_proper a) as [Ha1 Ha2], (Z_to_int_proper b) as [Hb1 Hb2].
  rewrite !NilZero.isi in H by assumption.
  injection H as H. apply (f_equal Z.of_int) in H.
  now rewrite !DecimalZ.of_to in H.
Qed.

(** X13. The identifier of a session record determines the clock reading it
    was made from: records made at different readings of [Date.now()]
    have different identifiers, and records made at the same reading have
    the same identifier, whatever the mentor and the draft. *)
Theorem session_id_determines_clock
  (w1 w2 : World) (m1 m2 : Mentor.t) (fd1 fd2 : BookingFormData) :
  Session.id (sessionDetails w1 m1 fd1) = Session.id (sessionDetails w2 m2 fd2)
  <-> Date_now w1 = Date_now w2.
Proof.
  cbn [sessionDetails Session.id]. split.
  - intros H. apply app_inv_head in H. now apply Z_to_jsstring_inj.
  - intros ->. reflexivity.
Qed.

(** ** Changing the duration *)

(** X3. For a mentor with a whole-number hourly rate of magnitude at most
    2^32, choosing an item of the duration control and letting the effect
    run sets the duration to the minutes of the item and the amount to a
    finite number, exactly the rate times the minutes over 60; the other
    fields of the draft, the stored sessions and the calls made are left
    as they were. *)
Theorem duration_change_sets_exact_amount
  (mentor : Mentor.t) (r : Z) (item : jsstring) (c : Config) :
  Mentor.hourlyRate mentor = Number_of_Z r ->
  Z.abs r <= 2 ^ 32 ->
  In item durationItems ->
  let c' := run mentor [SelectChange (VNumber (parseInt item)) F_sessionDuration;
                        DurationEffect] c in
  sessionDuration (formData (ui c')) = parseInt item /\
  is_finite (paymentAmount (formData (ui c'))) = true /\
  valid (paymentAmount (formData (ui c'))) = true /\
  60 * units (paymentAmount (formData (ui c'))) = r * units (parseInt item) /\
  topic (formData (ui c')) = topic (formData (ui c)) /\
  goals (formData (ui c')) = goals (formData (ui c)) /\
  sessionTime (formData (ui c')) = sessionTime (formData (ui c)) /\
  sessionDate (formData (ui c')) = sessionDate (formData (ui c)) /\
  bookedSessions c' = bookedSessions c /\
  events c' = events c.
Proof.
  intros Hrate Hr Hitem c'. subst c'.
  cbn [run fold_left step handleSelectChange updatePaymentAmount set_formData
       with_field ui formData sessionDuration paymentAmount topic goals
       sessionTime sessionDate bookedSessions events].
  rewrite Hrate.
  destruct (whole_rate_amount r (parseInt item) Hr) as (Hf & Hv & Hu).
  { unfold supportedDurations. now apply in_map. }
  repeat split; assumption.
Qed.

Lemma duration_change_sets_exact_amount_witness :
  let c' := run ada [SelectChange (VNumber (parseInt (str "90"))) F_sessionDuration;
                     DurationEffect] (mounted (draft (Number_of_Z 50)) Absent) in
  sessionDuration (formData (ui c')) = parseInt (str "90") /\
  is_finite (paymentAmount (formData (ui c'))) = true /\
  60 * units (paymentAmount (formData (ui c'))) = 50 * units (parseInt (str "90")).
Proof.
  destruct (duration_change_sets_exact_amount ada 50 (str "90")
              (mounted (draft (Number_of_Z 50)) Absent) eq_refl)
    as (Hd & Hf & _ & Ha & _).
  - vm_compute. discriminate.
  - right. right. left. reflexivity.
  - repeat split; assumption.
Defined.
